(** * train.py: the training script of UNet3plus_pth

    A shallow embedding of [src/train.py]: the dataset split, the epoch and
    batch loops of [train_net], the validation cadence, the checkpoint
    policy, [save_pt] / [load_pt], the model selection and the interrupt
    handler of the [__main__] block, and the learning-rate factor [lf].

    What the deep-learning framework does is not part of the script.  It
    enters the model in three ways:
    - as data the script only moves around (a state dict is a value of an
      arbitrary type [state_dict]);
    - as an oracle record [env] for what the script reads back from it
      (the length of the dataset, the loss of each batch, the channel count
      of each batch, the step at which Ctrl-C arrives);
    - as a log of the calls whose order and number the script decides
      ([event]).
    The world of a run holds the state dicts of the model and of the
    optimizer, the directories that [os.mkdir] makes and the checkpoint
    files that [torch.save] writes.  Console and progress-bar output, the
    event files that the tensorboard [SummaryWriter] writes under [runs/],
    the plot [LR.png], and the learning rate that the scheduler writes
    into the optimizer are outside it: the theorems on a whole run speak
    of the calls the script makes, of its variables and of its checkpoint
    files.

    Two models of Python floats are used.  The losses are [pyfloat]s:
    exact rationals extended with the two infinities and NaN, so
    comparisons and the absorbing values behave as in Python while
    rounding is left out.  The product of the dataset split is taken in
    binary64, on the primitive floats of Rocq ([split_sizes_float]). *)

From Stdlib Require Import ZArith QArith Qround Lia Bool List String DecimalString.
From Stdlib Require Import Reals Lra.
From Stdlib Require Import Floats.
From Stdlib Require Uint63.
From stdpp Require Import gmap strings list fin_maps.

Local Open Scope Z_scope.

(** ** Python numbers *)

Inductive pyfloat : Type :=
| Fin (q : Q)
| PInf
| NInf
| NaN.

(** [a + b] *)
Definition fadd (a b : pyfloat) : pyfloat :=
  match a, b with
  | NaN, _ | _, NaN => NaN
  | PInf, NInf | NInf, PInf => NaN
  | PInf, _ | _, PInf => PInf
  | NInf, _ | _, NInf => NInf
  | Fin x, Fin y => Fin (x + y)
  end.

(** [a <= b]: every comparison with NaN is false. *)
Definition fle (a b : pyfloat) : bool :=
  match a, b with
  | NaN, _ | _, NaN => false
  | NInf, _ => true
  | _, PInf => true
  | PInf, _ => false
  | _, NInf => false
  | Fin x, Fin y => Qle_bool x y
  end.

(** [a < b] *)
Definition flt (a b : pyfloat) : bool :=
  match a, b with
  | NaN, _ | _, NaN => false
  | _, NInf => false
  | NInf, _ => true
  | PInf, _ => false
  | _, PInf => true
  | Fin x, Fin y => negb (Qle_bool y x)
  end.

Definition of_int (z : Z) : pyfloat := Fin (inject_Z z).

(** [int(x)] on a finite value: rounding toward zero. *)
Definition int_of_Q (x : Q) : Z := Z.quot (Qnum x) (Zpos (Qden x)).

(** ** Exceptions and the effect monad *)

Inductive exn : Type :=
| KeyboardInterrupt
| SystemExit (code : Z)
| OSError
| ZeroDivisionError
| AssertionError
| AttributeError
| ValueError
| KeyError (key : string)
| FileNotFoundError (f : string)
| OverflowError.

Inductive outcome (A : Type) : Type :=
| Returned (a : A)
| Raised (e : exn).
Arguments Returned {A} a.
Arguments Raised {A} e.

(** The calls into the framework and the operating system that the claims
    count or order. *)
Inductive event : Type :=
| EvOptimStep (g : Z)          (* optimizer.step() of the batch drawn at global step g *)
| EvEval (g : Z)               (* eval_net(...) called with global_step = g *)
| EvSchedStep (epoch : Z)      (* scheduler.step() at the end of epoch *)
| EvMkdir (d : string) (created : bool)   (* os.mkdir(d): created, or OSError *)
| EvSave (f : string).         (* torch.save(checkpoint, f) *)

(** ** Binary64 numbers

    Line 29 multiplies [len(dataset)] by [val_percent] in binary64 and
    hands the product to [int()]. *)

(** The rational that the finite binary64 number with sign [s], mantissa
    [m] and exponent [e] stands for: plus or minus [m * 2^e]. *)
Definition Q_of_finite (s : bool) (m : positive) (e : Z) : Q :=
  let n := if s then Z.neg m else Z.pos m in
  match e with
  | Z0 => inject_Z n
  | Z.pos p => inject_Z (n * Z.pos (2 ^ p))
  | Z.neg p => n # (2 ^ p)
  end.

(** The value of a binary64 number; NaN and the infinities have none. *)
Definition float_value (x : float) : option Q :=
  match Prim2SF x with
  | S754_zero _ => Some 0%Q
  | S754_finite s m e => Some (Q_of_finite s m e)
  | S754_infinity _ | S754_nan => None
  end.

(** [int(x)] for a float [x]: the value rounded toward zero; ValueError
    for NaN and OverflowError for an infinity. *)
Definition int_of_float (x : float) : outcome Z :=
  match Prim2SF x with
  | S754_nan => Raised ValueError
  | S754_infinity _ => Raised OverflowError
  | S754_zero _ => Returned 0
  | S754_finite s m e => Returned (int_of_Q (Q_of_finite s m e))
  end.

(** The float that [n * x] turns [n = len(dataset)] into: the nearest
    binary64 number.  [len()] returns at most [2^63 - 1]. *)
Definition float_of_len (n : Z) : float := of_uint63 (Uint63.of_Z n).

(** [n_val] and [n_train] (lines 29-30), the product in binary64. *)
Definition split_sizes_float (len : Z) (val_percent : float)
  : outcome (Z * Z) :=
  match int_of_float (float_of_len len * val_percent)%float with
  | Returned n_val => let n_train := len - n_val in Returned (n_train, n_val)
  | Raised e => Raised e
  end.

(** ** The framework objects the script holds *)

Inductive arch : Type :=
| ArchUNet
| ArchUNet2Plus
| ArchUNet3Plus_DeepSup_CGM.

(** Modelled from the spec: the classes of package [unet] are not part of
    the source given; the script only calls their constructors with
    [n_channels] and [n_classes] and reads these two attributes back. *)
Record net : Type := mkNet {
  net_arch : arch;
  n_channels : Z;
  n_classes : Z
}.

Definition UNet (n_channels n_classes : Z) : net :=
  mkNet ArchUNet n_channels n_classes.
Definition UNet2Plus (n_channels n_classes : Z) : net :=
  mkNet ArchUNet2Plus n_channels n_classes.
Definition UNet3Plus_DeepSup_CGM (n_channels n_classes : Z) : net :=
  mkNet ArchUNet3Plus_DeepSup_CGM n_channels n_classes.

(** What the script reads back from the framework during one run. *)
Record env : Type := mkEnv {
  len_dataset : N;             (* len(dataset) *)
  batch_channels : Z -> Z;     (* imgs.shape[1] of the batch drawn at a global step *)
  batch_loss : Z -> pyfloat;   (* loss.item() of the batch drawn at a global step *)
  interrupt_at : option Z      (* Ctrl-C arrives when the batch of this global step is drawn *)
}.

(** The variables of [train_net] that live across batches and epochs. *)
Record locals : Type := mkLocals {
  global_step : Z;
  best_loss : pyfloat;
  epoch_loss : pyfloat
}.

Record args : Type := mkArgs {
  gpu_id : Z;
  unet_type : string;
  epochs : Z;
  batchsize : Z;
  lr : Q;
  load : option string;
  scale : Q;
  val : Q
}.

(** The defaults of [get_args]. *)
Definition default_args : args :=
  mkArgs 0 "v3" 10000 2 (1 # 10) None (1 # 2) 10.

(** [str(z)] *)
Definition str_int (z : Z) : string := NilZero.string_of_int (Z.to_int z).

(** The state a run acts on: what the model and the optimizer hold, the
    directories and checkpoint files on disk (a checkpoint is the Python
    dict that [save_pt] builds), and the log of calls. *)
Record world (state_dict : Type) : Type := mkWorld {
  model_state : state_dict;
  optimizer_state : state_dict;
  dirs : gset string;
  files : gmap string (gmap string state_dict);
  trace : list event
}.
Arguments mkWorld {state_dict}.
Arguments model_state {state_dict}.
Arguments optimizer_state {state_dict}.
Arguments dirs {state_dict}.
Arguments files {state_dict}.
Arguments trace {state_dict}.

(** The same framework with nobody pressing Ctrl-C. *)
Definition quiet (E : env) : env :=
  mkEnv (len_dataset E) (batch_channels E) (batch_loss E) None.

(** ** Sample inputs

    A framework whose state dicts are numbers: every optimizer step adds
    one to the model state and two to the optimizer state. *)

Definition demo_optim_step (g : Z) (s : nat * nat) : nat * nat :=
  (Datatypes.S (fst s), (snd s + 2)%nat).

Definition demo_str_loss (x : pyfloat) : string :=
  match x with
  | Fin q => (str_int (Qnum q) ++ "/" ++ str_int (Zpos (Qden q)))%string
  | PInf => "inf"
  | NInf => "-inf"
  | NaN => "nan"
  end.

(** A dataset of 100 three-channel samples whose every batch has loss
    1/2; nobody presses Ctrl-C. *)
Definition demo_env : env := mkEnv 100 (fun _ => 3) (fun _ => Fin (1 # 2)) None.

(** The same, with Ctrl-C arriving as the batch of global step 7 is
    drawn. *)
Definition demo_env_interrupted : env :=
  mkEnv 100 (fun _ => 3) (fun _ => Fin (1 # 2)) (Some 7).

(** A dataset of 5 samples. *)
Definition demo_env_small : env :=
  mkEnv 5 (fun _ => 3) (fun _ => Fin (1 # 2)) None.

(** A fresh model and optimizer in an empty working directory. *)
Definition demo_world : world nat := mkWorld 0%nat 0%nat ∅ ∅ [].

(** The same, with the checkpoint directory left by an earlier run. *)
Definition demo_world_with_dir : world nat :=
  mkWorld 0%nat 0%nat {[ "ckpts/" ]} ∅ [].

(** A later moment of a run that saved ['a.pt'] from [demo_world]: the
    model and the optimizer have moved on. *)
Definition demo_world_later : world nat :=
  mkWorld 7%nat 9%nat ∅
    (<["a.pt" := <["optimizer" := 0%nat]> (<["model" := 0%nat]> ∅)]> ∅)
    [EvSave "a.pt"].

(** One epoch with the default batch size and validation share. *)
Definition demo_args : args := mkArgs 0 "v1" 1 2 (1 # 10) None (1 # 2) 10.

(** A world whose file ['m.pt'] holds a dict with the key ['model'] only,
    as a script that saves the bare model would write it. *)
Definition demo_world_model_only : world nat :=
  mkWorld 7%nat 9%nat ∅ (<["m.pt" := <["model" := 3%nat]> ∅]> ∅) [].

(** A dataset of 100 one-channel samples. *)
Definition demo_env_grey : env :=
  mkEnv 100 (fun _ => 1) (fun _ => Fin (1 # 2)) None.

(** A dataset of 100 samples whose every batch loss is NaN. *)
Definition demo_env_nan : env := mkEnv 100 (fun _ => 3) (fun _ => NaN) None.

(** ** The script *)

Section Script.

(** The value returned by [state_dict()] and accepted by
    [load_state_dict]. *)
Variable state_dict : Type.

(** [backward()] followed by [optimizer.step()] for the batch drawn at a
    global step: the new model and optimizer states. *)
Variable optim_step : Z -> state_dict * state_dict -> state_dict * state_dict.

(** The text an f-string gives for the accumulated loss. *)
Variable str_loss : pyfloat -> string.

Local Abbreviation world := (world state_dict).

Definition M (A : Type) : Type := world -> world * outcome A.

Definition ret {A} (a : A) : M A := fun w => (w, Returned a).
Definition raise {A} (e : exn) : M A := fun w => (w, Raised e).
Definition bind {A B} (c : M A) (k : A -> M B) : M B :=
  fun w => match c w with
           | (w', Returned a) => k a w'
           | (w', Raised e) => (w', Raised e)
           end.
(** [try: c except ...: h e]; the handler decides which exceptions it
    takes and re-raises the others. *)
Definition try_except {A} (c : M A) (h : exn -> M A) : M A :=
  fun w => match c w with
           | (w', Returned a) => (w', Returned a)
           | (w', Raised e) => h e w'
           end.

Notation "x <- c ; k" := (bind c (fun x => k))
  (at level 20, c at level 100, k at level 200, only parsing).

Definition emit (e : event) : M unit :=
  fun w => (mkWorld (model_state w) (optimizer_state w) (dirs w) (files w)
                    (trace w ++ [e]), Returned tt).

(** ** Checkpoints: [save_pt] and [load_pt] *)

(** [torch.save(obj, f)]: the file system is a store keyed by path, and
    the write itself is taken to succeed. *)
Definition torch_save (obj : gmap string state_dict) (f : string) : M unit :=
  fun w => (mkWorld (model_state w) (optimizer_state w) (dirs w)
                    (<[f := obj]> (files w)) (trace w ++ [EvSave f]),
            Returned tt).

(** [torch.load(f)]: what was stored under [f], or FileNotFoundError. *)
Definition torch_load (f : string) : M (gmap string state_dict) :=
  fun w => match files w !! f with
           | Some obj => (w, Returned obj)
           | None => (w, Raised (FileNotFoundError f))
           end.

(** [checkpoint[k]] *)
Definition getitem (checkpoint : gmap string state_dict) (k : string)
  : M state_dict :=
  match checkpoint !! k with
  | Some v => ret v
  | None => raise (KeyError k)
  end.

Definition model_load_state_dict (sd : state_dict) : M unit :=
  fun w => (mkWorld sd (optimizer_state w) (dirs w) (files w) (trace w),
            Returned tt).

Definition optimizer_load_state_dict (sd : state_dict) : M unit :=
  fun w => (mkWorld (model_state w) sd (dirs w) (files w) (trace w),
            Returned tt).

Definition load_pt (f : string) : M unit :=
  checkpoint <- torch_load f;
  m <- getitem checkpoint "model";
  _ <- model_load_state_dict m;
  o <- getitem checkpoint "optimizer";
  optimizer_load_state_dict o.

(** The dict literal of [save_pt], read in world [w]. *)
Definition checkpoint_of (w : world) : gmap string state_dict :=
  <["optimizer" := optimizer_state w]> (<["model" := model_state w]> ∅).

Definition save_pt (f : string) : M unit :=
  fun w => let checkpoint := checkpoint_of w in torch_save checkpoint f w.

Variable E : env.

(** The number of batches [DataLoader(subset, batch_size=bs)] yields for a
    subset of [n] samples (drop_last is off); a batch size that is not
    positive is refused. *)
Definition DataLoader (n bs : Z) : M Z :=
  if bs <=? 0 then raise ValueError else ret ((n + bs - 1) / bs).

(** [LambdaLR(optimizer, lr_lambda=lf)] takes the initial step and so
    calls [lf(0)], which divides by [epochs].  The learning rate it
    enters into the optimizer is outside the world. *)
Definition LambdaLR (epochs : Z) : M unit :=
  if epochs =? 0 then raise ZeroDivisionError else ret tt.

(** [a % b] *)
Definition pymod (a b : Z) : M Z :=
  if b =? 0 then raise ZeroDivisionError else ret (a mod b).

Definition optimizer_step (g : Z) : M unit :=
  fun w =>
    let '(m, o) := optim_step g (model_state w, optimizer_state w) in
    (mkWorld m o (dirs w) (files w) (trace w ++ [EvOptimStep g]), Returned tt).

Definition eval_net (g : Z) : M unit := emit (EvEval g).

(** [scheduler.step()] (line 119): the call is logged; the learning rate
    it writes into the optimizer is outside the world. *)
Definition scheduler_step (epoch : Z) : M unit := emit (EvSchedStep epoch).

(** [os.mkdir(d)]: OSError when [d] is there already, and nothing
    changes then. *)
Definition os_mkdir (d : string) : M unit :=
  fun w =>
    if decide (d ∈ dirs w)
    then (mkWorld (model_state w) (optimizer_state w) (dirs w) (files w)
                  (trace w ++ [EvMkdir d false]), Raised OSError)
    else (mkWorld (model_state w) (optimizer_state w) ({[d]} ∪ dirs w)
                  (files w) (trace w ++ [EvMkdir d true]), Returned tt).

(** [isinstance(e, OSError)] *)
Definition is_OSError (e : exn) : bool :=
  match e with
  | OSError | FileNotFoundError _ => true
  | _ => false
  end.

(** ** [train_net] *)

Definition dir_checkpoint : string := "ckpts/".

Fixpoint for_range {S : Type} (n : nat) (i : Z) (body : Z -> S -> M S) (s : S)
  : M S :=
  match n with
  | O => ret s
  | Datatypes.S n' => s' <- body i s; for_range n' (i + 1) body s'
  end.

(** [item_loss if item_loss <= 1 else 1] *)
Definition clamp_loss (item_loss : pyfloat) : pyfloat :=
  if fle item_loss (of_int 1) then item_loss else of_int 1.

(** The body of [for batch in train_loader] (lines 75-116). *)
Definition train_batch (model : net) (n_train : Z) (st : locals) : M locals :=
  _ <- (match interrupt_at E with
        | Some g => if g =? global_step st then raise KeyboardInterrupt
                    else ret tt
        | None => ret tt
        end);
  _ <- (if batch_channels E (global_step st) =? n_channels model
        then ret tt else raise AssertionError);
  let item_loss := batch_loss E (global_step st) in
  let epoch_loss' := fadd (epoch_loss st) (clamp_loss item_loss) in
  _ <- optimizer_step (global_step st);
  let global_step' := global_step st + 1 in
  r <- pymod global_step' (n_train / 10);
  _ <- (if r =? 0 then eval_net global_step' else ret tt);
  ret (mkLocals global_step' (best_loss st) epoch_loss').

(** [f'{dir_checkpoint}/epoch{epoch+1}_{epoch_loss}.pt'] *)
Definition checkpoint_name (epoch : Z) (epoch_loss : pyfloat) : string :=
  (dir_checkpoint ++ "/epoch" ++ str_int (epoch + 1) ++ "_"
     ++ str_loss epoch_loss ++ ".pt")%string.

(** [try: os.mkdir(dir_checkpoint) except OSError: pass] (lines 123-127). *)
Definition try_mkdir : M unit :=
  try_except (os_mkdir dir_checkpoint)
    (fun e => if is_OSError e then ret tt else raise e).

(** [if save_cp:] (lines 123-132). *)
Definition save_checkpoint (epoch : Z) (st : locals) : M locals :=
  _ <- try_mkdir;
  if flt (epoch_loss st) (best_loss st)
  then
    _ <- save_pt (checkpoint_name epoch (epoch_loss st));
    ret (mkLocals (global_step st) (epoch_loss st) (epoch_loss st))
  else ret st.

(** The body of [for epoch in range(epochs)] (lines 68-132); [nb] is the
    number of batches the train loader yields. *)
Definition train_epoch (model : net) (n_train : Z) (nb : nat) (save_cp : bool)
  (epoch : Z) (st : locals) : M locals :=
  st1 <- for_range nb 0 (fun _ => train_batch model n_train)
           (mkLocals (global_step st) (best_loss st) (of_int 0));
  _ <- scheduler_step epoch;
  if save_cp then save_checkpoint epoch st1 else ret st1.

(** [n_val] and [n_train] (lines 29-30) for a [val_percent] given as a
    rational, the product taken exactly.  The theorems on a run take
    [n_train] from here and use nothing of it but the hypotheses they
    state; the product as Python rounds it is [split_sizes_float]. *)
Definition split_sizes (len : Z) (val_percent : Q) : Z * Z :=
  let n_val := int_of_Q (inject_Z len * val_percent) in
  let n_train := len - n_val in
  (n_train, n_val).

Definition initial_locals : locals :=
  mkLocals 0 (of_int 10000) (of_int 0).

(** Lines 27-132: the split, the loaders, the scheduler and the epoch
    loop.  The [SummaryWriter] of line 38 and the plot of lines 135-141
    write files of their own ([runs/], [LR.png]) and are outside the
    world. *)
Definition train_net (model : net) (epochs batch_size : Z) (val_percent : Q)
  (save_cp : bool) : M locals :=
  let '(n_train, n_val) := split_sizes (Z.of_N (len_dataset E)) val_percent in
  nb <- DataLoader n_train batch_size;
  _ <- DataLoader n_val batch_size;
  _ <- LambdaLR epochs;
  for_range (Z.to_nat epochs) 0
    (train_epoch model n_train (Z.to_nat nb) save_cp) initial_locals.

(** ** The learning-rate factor *)

(** [b ** e] for a base that is not negative and a positive exponent, over
    the reals. *)
Definition pow_float (b e : R) : R :=
  if Rlt_dec 0 b then Rpower b e else 0%R.

(** [lf] (lines 55-56) over the reals; dividing by [epochs = 0] raises
    ZeroDivisionError, which is [None] here. *)
Definition lf (epochs : Z) (x : R) : option R :=
  if epochs =? 0 then None
  else Some (pow_float ((1 + cos (x * PI / IZR epochs)) / 2) 1 * 0.95
             + 0.05)%R.

(** ** The [__main__] block *)

(** Lines 199-206. *)
Definition select_model (unet_type : string) : net :=
  if String.eqb unet_type "v2" then UNet2Plus 3 1
  else if String.eqb unet_type "v3" then UNet3Plus_DeepSup_CGM 3 1
  else UNet 3 1.

Definition sys_exit (code : Z) : M unit := raise (SystemExit code).

(** Module [os] has no attribute [exit]. *)
Definition os_exit (code : Z) : M unit := raise AttributeError.

(** The handler of [except KeyboardInterrupt:] (lines 225-230). *)
Definition on_interrupt : M unit :=
  _ <- save_pt "INTERRUPTED.pt";
  try_except (sys_exit 0)
    (fun e => match e with
              | SystemExit _ => os_exit 0
              | _ => raise e
              end).

(** Lines 221-230 around an arbitrary body. *)
Definition guarded {A} (body : M A) : M unit :=
  try_except (_ <- body; ret tt)
    (fun e => match e with
              | KeyboardInterrupt => on_interrupt
              | _ => raise e
              end).

Definition main (a : args) : M unit :=
  let model := select_model (unet_type a) in
  guarded (train_net model (epochs a) (batchsize a) (val a / 100)%Q true).

(** ** What a run leaves behind, as pure functions of the oracle *)

(** The calls of one batch drawn at global step [g], with validation
    period [p]. *)
Definition batch_events (p g : Z) : list event :=
  EvOptimStep g :: (if (g + 1) mod p =? 0 then [EvEval (g + 1)] else []).

Fixpoint batches_events (p : Z) (n : nat) (g : Z) : list event :=
  match n with
  | O => []
  | Datatypes.S n' => batch_events p g ++ batches_events p n' (g + 1)
  end.

(** The accumulated loss after [n] batches starting at global step [g]. *)
Fixpoint clamped_sum (n : nat) (g : Z) (acc : pyfloat) : pyfloat :=
  match n with
  | O => acc
  | Datatypes.S n' =>
      clamped_sum n' (g + 1) (fadd acc (clamp_loss (batch_loss E g)))
  end.

(** The model and optimizer states after [n] optimizer steps. *)
Fixpoint optim_iter (n : nat) (g : Z) (s : state_dict * state_dict)
  : state_dict * state_dict :=
  match n with
  | O => s
  | Datatypes.S n' => optim_iter n' (g + 1) (optim_step g s)
  end.

Definition world_after_batches (p : Z) (n : nat) (g : Z) (w : world) : world :=
  let s := optim_iter n g (model_state w, optimizer_state w) in
  mkWorld (fst s) (snd s) (dirs w) (files w)
          (trace w ++ batches_events p n g).

(** No Ctrl-C, and every batch has the channel count of the model. *)
Definition undisturbed (model : net) : Prop :=
  interrupt_at E = None /\ forall g, batch_channels E g = n_channels model.

(** *** The end of an epoch *)

Definition add_events (w : world) (evs : list event) : world :=
  mkWorld (model_state w) (optimizer_state w) (dirs w) (files w)
          (trace w ++ evs).

Definition world_after_mkdir (w : world) : world :=
  if decide (dir_checkpoint ∈ dirs w)
  then add_events w [EvMkdir dir_checkpoint false]
  else mkWorld (model_state w) (optimizer_state w)
               ({[dir_checkpoint]} ∪ dirs w) (files w)
               (trace w ++ [EvMkdir dir_checkpoint true]).

Definition world_after_save (f : string) (w : world) : world :=
  mkWorld (model_state w) (optimizer_state w) (dirs w)
          (<[f := checkpoint_of w]> (files w)) (trace w ++ [EvSave f]).

(** The variables at the end of the batch loop of an epoch entered with
    [st], for a loader of [nb] batches. *)
Definition locals_after_batches (nb : nat) (st : locals) : locals :=
  mkLocals (global_step st + Z.of_nat nb) (best_loss st)
           (clamped_sum nb (global_step st) (of_int 0)).

(** The calls of the checkpoint block for an epoch that ended with
    accumulated loss [l], best loss [best], and the directory present or
    not. *)
Definition checkpoint_events (epoch : Z) (l best : pyfloat) (have_dir : bool)
  : list event :=
  EvMkdir dir_checkpoint (negb have_dir)
    :: (if flt l best then [EvSave (checkpoint_name epoch l)] else []).

(** All calls of one epoch entered with [st] in world [w]. *)
Definition epoch_events (p : Z) (nb : nat) (save_cp : bool) (epoch : Z)
  (st : locals) (w : world) : list event :=
  batches_events p nb (global_step st)
    ++ EvSchedStep epoch
    :: (if save_cp
        then checkpoint_events epoch
               (clamped_sum nb (global_step st) (of_int 0)) (best_loss st)
               (bool_decide (dir_checkpoint ∈ dirs w))
        else []).

(** [best_loss] after an epoch. *)
Definition next_best (save_cp : bool) (l best : pyfloat) : pyfloat :=
  if save_cp && flt l best then l else best.

Definition states (w : world) : state_dict * state_dict :=
  (model_state w, optimizer_state w).

(** The number of batches per epoch in [train_net]. *)
Definition batches_per_epoch (n_train batch_size : Z) : nat :=
  Z.to_nat ((n_train + batch_size - 1) / batch_size).

(** *** Counting the calls of a run *)

Definition is_eval (e : event) : bool :=
  match e with EvEval _ => true | _ => false end.

Definition is_sched (e : event) : bool :=
  match e with EvSchedStep _ => true | _ => false end.

Fixpoint count (f : event -> bool) (evs : list event) : nat :=
  match evs with
  | [] => 0
  | e :: evs' => (if f e then 1 else 0) + count f evs'
  end.

(** *** More to say about a run *)

(** Neither NaN nor plus infinity: the values an accumulated loss takes. *)
Definition bounded_above (x : pyfloat) : bool :=
  match x with
  | Fin _ | NInf => true
  | PInf | NaN => false
  end.

(** The accumulated loss of epoch [k] of a run whose epochs have [nb]
    batches each. *)
Definition epoch_loss_of (nb : nat) (k : Z) : pyfloat :=
  clamped_sum nb (k * Z.of_nat nb) (of_int 0).

Definition is_mkdir_created (e : event) : bool :=
  match e with EvMkdir _ true => true | _ => false end.

Definition is_mkdir_refused (e : event) : bool :=
  match e with EvMkdir _ false => true | _ => false end.

(** The second world has every directory and every file name of the
    first. *)
Definition fs_extends (w w' : world) : Prop :=
  dirs w ⊆ dirs w' /\ dom (files w) ⊆ dom (files w').

(** The two worlds have the same directories and files. *)
Definition fs_same (w w' : world) : Prop :=
  dirs w' = dirs w /\ files w' = files w.

(** A computation keeps relation [R] between the world it starts in and
    the world it leaves, however it ends. *)
Definition keeps {A : Type} (R : world -> world -> Prop) (c : M A) : Prop :=
  forall w, R w (fst (c w)).

Definition is_optim (e : event) : bool :=
  match e with EvOptimStep _ => true | _ => false end.

Definition is_mkdir (e : event) : bool :=
  match e with EvMkdir _ _ => true | _ => false end.

Definition is_save (e : event) : bool :=
  match e with EvSave _ => true | _ => false end.

(** The second world's log is the first's, followed by calls none of
    which is an [os.mkdir] or a [torch.save]. *)
Definition no_disk_calls (w w' : world) : Prop :=
  exists evs, trace w' = trace w ++ evs
              /\ count is_mkdir evs = 0%nat /\ count is_save evs = 0%nat.

(** The global steps of the optimizer steps of a log, in the order of
    the log. *)
Fixpoint optim_steps (evs : list event) : list Z :=
  match evs with
  | [] => []
  | EvOptimStep g :: evs' => g :: optim_steps evs'
  | _ :: evs' => optim_steps evs'
  end.

(** [g, g + 1, ..., g + n - 1] *)
Fixpoint steps_from (n : nat) (g : Z) : list Z :=
  match n with
  | O => []
  | Datatypes.S n' => g :: steps_from n' (g + 1)
  end.

Lemma world_eta (w : world) :
  mkWorld (model_state w) (optimizer_state w) (dirs w) (files w) (trace w) = w.
Proof. destruct w; reflexivity. Qed.

Lemma train_batch_ok (model : net) (n_train : Z) (st : locals) (w : world) :
  undisturbed model ->
  n_train / 10 <> 0 ->
  train_batch model n_train st w =
    (world_after_batches (n_train / 10) 1 (global_step st) w,
     Returned (mkLocals (global_step st + 1) (best_loss st)
                 (fadd (epoch_loss st)
                       (clamp_loss (batch_loss E (global_step st)))))).
Proof.
  intros [Hint Hch] Hp.
  unfold train_batch, bind, world_after_batches. rewrite Hint. cbn.
  rewrite Hch, Z.eqb_refl. cbn.
  unfold optimizer_step, pymod.
  destruct (optim_step (global_step st) (model_state w, optimizer_state w))
    as [m o] eqn:Hos.
  apply Z.eqb_neq in Hp. rewrite Hp. cbn.
  unfold batch_events.
  destruct ((global_step st + 1) mod (n_train / 10) =? 0); cbn;
    rewrite ?app_nil_r, <- ?app_assoc; reflexivity.
Qed.

Lemma world_after_batches_S (p : Z) (n : nat) (g : Z) (w : world) :
  world_after_batches p (Datatypes.S n) g w =
  world_after_batches p n (g + 1) (world_after_batches p 1 g w).
Proof.
  unfold world_after_batches. cbn.
  destruct (optim_step g (model_state w, optimizer_state w)) as [m o].
  cbn. rewrite app_nil_r, <- app_assoc. reflexivity.
Qed.

Lemma world_after_batches_O (p g : Z) (w : world) :
  world_after_batches p 0 g w = w.
Proof.
  unfold world_after_batches. cbn. rewrite app_nil_r. apply world_eta.
Qed.

(** The batch loop of one epoch runs to its end when nothing disturbs
    it, and leaves exactly this world and these variables. *)
Lemma batches_run (model : net) (n_train : Z) (n : nat) :
  undisturbed model ->
  n_train / 10 <> 0 ->
  forall (i : Z) (st : locals) (w : world),
    for_range n i (fun _ => train_batch model n_train) st w =
      (world_after_batches (n_train / 10) n (global_step st) w,
       Returned (mkLocals (global_step st + Z.of_nat n) (best_loss st)
                   (clamped_sum n (global_step st) (epoch_loss st)))).
Proof.
  intros Hu Hp. induction n as [|n IH]; intros i st w.
  - cbn. unfold ret. rewrite world_after_batches_O, Z.add_0_r.
    destruct st; reflexivity.
  - cbn [for_range]. unfold bind. rewrite train_batch_ok by assumption.
    rewrite IH. cbn [global_step best_loss epoch_loss clamped_sum].
    rewrite <- world_after_batches_S.
    replace (global_step st + 1 + Z.of_nat n)
      with (global_step st + Z.of_nat (Datatypes.S n)) by lia.
    reflexivity.
Qed.

Lemma save_pt_eq (f : string) (w : world) :
  save_pt f w = (world_after_save f w, Returned tt).
Proof. reflexivity. Qed.

Lemma try_mkdir_eq (w : world) :
  try_mkdir w = (world_after_mkdir w, Returned tt).
Proof.
  unfold try_mkdir, try_except, os_mkdir, world_after_mkdir.
  destruct (decide (dir_checkpoint ∈ dirs w)); reflexivity.
Qed.

Lemma save_checkpoint_eq (epoch : Z) (st : locals) (w : world) :
  save_checkpoint epoch st w =
    if flt (epoch_loss st) (best_loss st)
    then (world_after_save (checkpoint_name epoch (epoch_loss st))
            (world_after_mkdir w),
          Returned (mkLocals (global_step st) (epoch_loss st) (epoch_loss st)))
    else (world_after_mkdir w, Returned st).
Proof.
  unfold save_checkpoint, bind. rewrite try_mkdir_eq.
  destruct (flt (epoch_loss st) (best_loss st)); reflexivity.
Qed.

Lemma train_epoch_eq (model : net) (n_train : Z) (nb : nat) (save_cp : bool)
  (epoch : Z) (st : locals) (w : world) :
  undisturbed model ->
  n_train / 10 <> 0 ->
  train_epoch model n_train nb save_cp epoch st w =
    let w1 := add_events (world_after_batches (n_train / 10) nb
                            (global_step st) w) [EvSchedStep epoch] in
    if save_cp then save_checkpoint epoch (locals_after_batches nb st) w1
    else (w1, Returned (locals_after_batches nb st)).
Proof.
  intros Hu Hp. unfold train_epoch, bind.
  rewrite batches_run by assumption. cbn.
  destruct save_cp; reflexivity.
Qed.

Lemma trace_world_after_batches (p : Z) (n : nat) (g : Z) (w : world) :
  trace (world_after_batches p n g w) = trace w ++ batches_events p n g.
Proof. reflexivity. Qed.

Lemma dirs_world_after_batches (p : Z) (n : nat) (g : Z) (w : world) :
  dirs (world_after_batches p n g w) = dirs w.
Proof. reflexivity. Qed.

Lemma files_world_after_batches (p : Z) (n : nat) (g : Z) (w : world) :
  files (world_after_batches p n g w) = files w.
Proof. reflexivity. Qed.

Lemma trace_world_after_mkdir (w : world) :
  trace (world_after_mkdir w) =
  trace w ++ [EvMkdir dir_checkpoint
                (negb (bool_decide (dir_checkpoint ∈ dirs w)))].
Proof.
  unfold world_after_mkdir.
  destruct (decide (dir_checkpoint ∈ dirs w)) as [Hin|Hin].
  - rewrite (bool_decide_eq_true_2 _ Hin). reflexivity.
  - rewrite (bool_decide_eq_false_2 _ Hin). reflexivity.
Qed.

Lemma dir_after_mkdir (w : world) :
  dir_checkpoint ∈ dirs (world_after_mkdir w).
Proof.
  unfold world_after_mkdir.
  destruct (decide (dir_checkpoint ∈ dirs w)); cbn; set_solver.
Qed.

Lemma files_world_after_mkdir (w : world) :
  files (world_after_mkdir w) = files w.
Proof.
  unfold world_after_mkdir.
  destruct (decide (dir_checkpoint ∈ dirs w)); reflexivity.
Qed.

Lemma states_world_after_mkdir (w : world) :
  model_state (world_after_mkdir w) = model_state w
  /\ optimizer_state (world_after_mkdir w) = optimizer_state w.
Proof.
  unfold world_after_mkdir.
  destruct (decide (dir_checkpoint ∈ dirs w)); split; reflexivity.
Qed.

Lemma checkpoint_of_after_mkdir (w : world) :
  checkpoint_of (world_after_mkdir w) = checkpoint_of w.
Proof.
  unfold checkpoint_of. destruct (states_world_after_mkdir w) as [-> ->].
  reflexivity.
Qed.

(** One epoch, when nothing disturbs it: it returns, and this is what it
    leaves. *)
Lemma train_epoch_run (model : net) (n_train : Z) (nb : nat) (save_cp : bool)
  (epoch : Z) (st : locals) (w : world) :
  undisturbed model ->
  n_train / 10 <> 0 ->
  exists (w' : world) (st' : locals),
    train_epoch model n_train nb save_cp epoch st w = (w', Returned st')
    /\ trace w' = trace w ++ epoch_events (n_train / 10) nb save_cp epoch st w
    /\ global_step st' = global_step st + Z.of_nat nb
    /\ best_loss st' =
         next_best save_cp (clamped_sum nb (global_step st) (of_int 0))
                   (best_loss st)
    /\ epoch_loss st' = clamped_sum nb (global_step st) (of_int 0)
    /\ (save_cp = true -> dir_checkpoint ∈ dirs w')
    /\ states w' = optim_iter nb (global_step st) (states w)
    /\ files w' =
         if save_cp && flt (clamped_sum nb (global_step st) (of_int 0))
                           (best_loss st)
         then <[checkpoint_name epoch
                  (clamped_sum nb (global_step st) (of_int 0))
                := checkpoint_of w']> (files w)
         else files w.
Proof.
  intros Hu Hp. rewrite train_epoch_eq by assumption. cbv zeta.
  unfold epoch_events, next_best.
  set (w1 := add_events (world_after_batches (n_train / 10) nb
                           (global_step st) w) [EvSchedStep epoch]).
  assert (Hst1 : states w1 = optim_iter nb (global_step st) (states w)).
  { unfold states, w1. cbn.
    now destruct (optim_iter nb (global_step st)
                    (model_state w, optimizer_state w)). }
  assert (Htr1 : trace w1 = trace w ++ batches_events (n_train / 10) nb
                                          (global_step st)
                              ++ [EvSchedStep epoch]).
  { unfold w1. cbn. now rewrite <- app_assoc. }
  assert (Hd1 : dirs w1 = dirs w) by reflexivity.
  assert (Hf1 : files w1 = files w) by reflexivity.
  destruct save_cp; cbn [andb].
  - rewrite save_checkpoint_eq. unfold checkpoint_events.
    cbn [epoch_loss best_loss global_step locals_after_batches].
    pose proof (trace_world_after_mkdir w1) as Htm.
    pose proof (files_world_after_mkdir w1) as Hfm.
    pose proof (states_world_after_mkdir w1) as [Hm Ho].
    pose proof (dir_after_mkdir w1) as Hdm.
    rewrite Hd1, Htr1 in Htm. rewrite Hf1 in Hfm.
    destruct (flt _ _); eexists; eexists; (split; [reflexivity|]).
    + cbn [trace world_after_save global_step best_loss epoch_loss dirs
             files].
      rewrite Htm, <- ?app_assoc. cbn [app].
      repeat split; auto.
      * unfold states in *. cbn. now rewrite Hm, Ho.
      * now rewrite Hfm.
    + cbn [global_step best_loss epoch_loss].
      rewrite Htm, <- ?app_assoc. cbn [app].
      repeat split; auto.
      unfold states in *. now rewrite Hm, Ho.
  - eexists; eexists; split; [reflexivity|].
    cbn [global_step best_loss epoch_loss locals_after_batches].
    rewrite Htr1, <- ?app_assoc. cbn [app].
    repeat split; auto. discriminate.
Qed.

(** *** Loops *)

(** The loop rule: a property of the loop index, the variables and the
    world that every iteration re-establishes while returning normally
    holds when the loop ends, and the loop returns. *)
Lemma for_range_inv {S : Type} (I : Z -> S -> world -> Prop)
  (body : Z -> S -> M S) :
  (forall i s w, I i s w ->
     exists w' s', body i s w = (w', Returned s') /\ I (i + 1) s' w') ->
  forall (n : nat) (i : Z) (s : S) (w : world),
    I i s w ->
    exists w' s',
      for_range n i body s w = (w', Returned s') /\ I (i + Z.of_nat n) s' w'.
Proof.
  intros Hbody. induction n as [|n IH]; intros i s w Hi.
  - exists w, s. split; [reflexivity|]. now rewrite Z.add_0_r.
  - destruct (Hbody _ _ _ Hi) as (w1 & s1 & Hb & Hi1).
    destruct (IH _ _ _ Hi1) as (w2 & s2 & Hl & Hi2).
    exists w2, s2. split.
    + cbn [for_range]. unfold bind. rewrite Hb. exact Hl.
    + replace (i + Z.of_nat (Datatypes.S n)) with (i + 1 + Z.of_nat n) by lia.
      exact Hi2.
Qed.

Lemma train_net_eq (model : net) (epochs batch_size : Z) (val_percent : Q)
  (save_cp : bool) (w : world) :
  0 < batch_size ->
  epochs <> 0 ->
  train_net model epochs batch_size val_percent save_cp w =
    for_range (Z.to_nat epochs) 0
      (train_epoch model (fst (split_sizes (Z.of_N (len_dataset E)) val_percent))
         (batches_per_epoch
            (fst (split_sizes (Z.of_N (len_dataset E)) val_percent))
            batch_size) save_cp)
      initial_locals w.
Proof.
  intros Hbs He. unfold train_net, split_sizes, fst, bind, DataLoader, LambdaLR.
  destruct (batch_size <=? 0) eqn:Hb; [apply Z.leb_le in Hb; lia|].
  apply Z.eqb_neq in He. rewrite He. reflexivity.
Qed.

(** ** Properties *)

(** *** Python numbers *)

Lemma int_of_Q_floor (x : Q) : (0 <= x)%Q -> int_of_Q x = Qfloor x.
Proof.
  destruct x as [n d]. unfold Qle, int_of_Q, Qfloor. cbn. intros H.
  apply Z.quot_div_nonneg; lia.
Qed.

Lemma fle_of_int_step (acc x : pyfloat) (k : Z) :
  fle acc (of_int k) = true ->
  fle (fadd acc (clamp_loss x)) (of_int (k + 1)) = true.
Proof.
  unfold clamp_loss, of_int. intros Hacc.
  assert (Hone : forall a, Qle_bool a (inject_Z k) = true ->
                 forall q, Qle_bool q (inject_Z 1) = true ->
                 Qle_bool (a + q) (inject_Z (k + 1)) = true).
  { intros a Ha q Hq. apply Qle_bool_iff. apply Qle_bool_iff in Ha, Hq.
    rewrite inject_Z_plus. now apply Qplus_le_compat. }
  destruct acc as [a| | |]; cbn in Hacc; try discriminate;
    destruct x as [q| | |]; cbn;
    try destruct (Qle_bool q (inject_Z 1)) eqn:Hq; cbn; auto.
Qed.

Lemma clamped_sum_le (n : nat) :
  forall (g : Z) (acc : pyfloat) (k : Z),
    fle acc (of_int k) = true ->
    fle (clamped_sum n g acc) (of_int (k + Z.of_nat n)) = true.
Proof.
  induction n as [|n IH]; intros g acc k Hacc.
  - cbn. now rewrite Z.add_0_r.
  - cbn [clamped_sum].
    replace (k + Z.of_nat (Datatypes.S n)) with (k + 1 + Z.of_nat n) by lia.
    apply IH. now apply fle_of_int_step.
Qed.

(** *** Checkpoint files *)

(** C6. [save_pt] writes to [f] a dict with exactly two keys, ["model"]
    holding the model's state dict and ["optimizer"] holding the
    optimizer's; and in any world where [f] holds what [save_pt] wrote,
    whatever the model and the optimizer hold by then, [load_pt] returns
    normally and puts both saved states back, touching nothing else. *)
Theorem checkpoint_round_trip (f : string) (w w2 : world) :
  (save_pt f w = (world_after_save f w, Returned tt)
   /\ files (world_after_save f w) !! f = Some (checkpoint_of w)
   /\ checkpoint_of w !! "model" = Some (model_state w)
   /\ checkpoint_of w !! "optimizer" = Some (optimizer_state w)
   /\ dom (checkpoint_of w) = {[ "model"; "optimizer" ]})
  /\ (files w2 !! f = files (world_after_save f w) !! f ->
      load_pt f w2 =
        (mkWorld (model_state w) (optimizer_state w) (dirs w2) (files w2)
                 (trace w2), Returned tt)).
Proof.
  assert (Hm : checkpoint_of w !! "model" = Some (model_state w)).
  { unfold checkpoint_of. rewrite lookup_insert_ne by discriminate.
    apply lookup_insert_eq. }
  assert (Ho : checkpoint_of w !! "optimizer" = Some (optimizer_state w)).
  { unfold checkpoint_of. apply lookup_insert_eq. }
  assert (Hf : files (world_after_save f w) !! f = Some (checkpoint_of w)).
  { cbn. apply lookup_insert_eq. }
  split.
  - split; [reflexivity|]. split; [exact Hf|]. split; [exact Hm|].
    split; [exact Ho|].
    unfold checkpoint_of. rewrite !dom_insert_L. set_solver.
  - intros Hsame. rewrite Hf in Hsame.
    unfold load_pt, bind, torch_load. rewrite Hsame.
    unfold getitem. rewrite Hm. cbn. rewrite Ho. reflexivity.
Qed.

(** *** Model selection *)

(** C10. Every [--unet_type] other than exactly ["v2"] and ["v3"], the
    documented ["v1"] included, builds the plain UNet with three input
    channels and one class; ["v2"] builds UNet2Plus and ["v3"] builds
    UNet3Plus_DeepSup_CGM, with the same two arguments. *)
Theorem select_model_cases (unet_type : string) :
  (unet_type <> "v2" -> unet_type <> "v3" ->
   select_model unet_type = UNet 3 1)
  /\ select_model "v1" = UNet 3 1
  /\ select_model "v2" = UNet2Plus 3 1
  /\ select_model "v3" = UNet3Plus_DeepSup_CGM 3 1
  /\ n_channels (select_model unet_type) = 3
  /\ n_classes (select_model unet_type) = 1.
Proof.
  split; [|split; [|split; [|split; [|split]]]]; try reflexivity.
  - intros H2 H3. unfold select_model.
    apply String.eqb_neq in H2, H3. now rewrite H2, H3.
  - unfold select_model.
    destruct (String.eqb unet_type "v2"), (String.eqb unet_type "v3");
      reflexivity.
  - unfold select_model.
    destruct (String.eqb unet_type "v2"), (String.eqb unet_type "v3");
      reflexivity.
Qed.

(** *** The dataset split *)

(** Rounding keeps the sign it is given. *)
Lemma binary_round_aux_sign (sx : bool) (mx ex : Z) (lx : location) :
  match binary_round_aux prec emax sx mx ex lx with
  | S754_zero s | S754_infinity s | S754_finite s _ _ => s = sx
  | S754_nan => True
  end.
Proof.
  unfold binary_round_aux.
  destruct (shr_fexp prec emax mx ex lx) as [mrs' e'].
  destruct (shr_fexp prec emax _ e' loc_Exact) as [mrs'' e''].
  destruct (shr_m mrs''); [reflexivity| |exact I].
  destruct (e'' <=? emax - prec); reflexivity.
Qed.

Lemma float_of_len_sign (n : Z) :
  match Prim2SF (float_of_len n) with
  | S754_zero s | S754_infinity s | S754_finite s _ _ => s = false
  | S754_nan => True
  end.
Proof.
  unfold float_of_len. rewrite of_uint63_spec.
  pose proof (Uint63.to_Z_bounded (Uint63.of_Z n)) as Hb.
  unfold binary_normalize.
  destruct (Uint63.to_Z (Uint63.of_Z n)) as [|m|m]; [reflexivity| |lia].
  unfold binary_round.
  destruct (shl_align m 0 _) as [mz ez].
  apply binary_round_aux_sign.
Qed.

Lemma Q_of_finite_nonneg (m : positive) (e : Z) :
  (0 <= Q_of_finite false m e)%Q.
Proof. unfold Q_of_finite, Qle. destruct e; cbn; lia. Qed.

(** The product of a length and a float that is not negative is not a
    negative number. *)
Lemma product_sign (len : Z) (val_percent : float) :
  (0 <=? val_percent)%float = true ->
  match Prim2SF (float_of_len len * val_percent)%float with
  | S754_finite s _ _ => s = false
  | _ => True
  end.
Proof.
  intros H. rewrite leb_spec in H. rewrite mul_spec.
  pose proof (float_of_len_sign len) as Hl.
  change (Prim2SF 0) with (S754_zero false) in H.
  destruct (Prim2SF val_percent) as [sy|sy| |sy my ey];
    destruct (Prim2SF (float_of_len len)) as [sx|sx| |sx mx ex];
    try exact I.
  subst sx. destruct sy; [discriminate H|].
  pose proof (binary_round_aux_sign (xorb false false)
                (Z.pos (mx * my)) (ex + ey) loc_Exact) as Hs.
  unfold SF64mul, SFmul.
  destruct (binary_round_aux _ _ _ _ _ _); try exact I. exact Hs.
Qed.

(** C3. For a dataset of [len] samples and a validation fraction that is
    not negative, the split returns whenever the binary64 product
    [len * val_percent] is a number; [n_val] is then the floor of that
    product, [n_train] is [len - n_val], and the two sizes add up to
    [len].  When the product is no number (an infinity or NaN) [int()]
    raises. *)
Theorem dataset_split (len : N) (val_percent : float) :
  Z.of_N len < 2 ^ 63 ->
  (0 <=? val_percent)%float = true ->
  match float_value (float_of_len (Z.of_N len) * val_percent)%float with
  | Some product =>
      exists n_train n_val,
        split_sizes_float (Z.of_N len) val_percent = Returned (n_train, n_val)
        /\ n_val = Qfloor product
        /\ n_train = Z.of_N len - n_val
        /\ n_train + n_val = Z.of_N len
  | None => exists e, split_sizes_float (Z.of_N len) val_percent = Raised e
  end.
Proof.
  intros _ Hv.
  pose proof (product_sign (Z.of_N len) val_percent Hv) as Hs.
  unfold float_value, split_sizes_float, int_of_float.
  destruct (Prim2SF (float_of_len (Z.of_N len) * val_percent)%float)
    as [s|s| |s m e].
  - eexists _, _. split; [reflexivity|]. split; [reflexivity|]. lia.
  - eexists; reflexivity.
  - eexists; reflexivity.
  - subst s. eexists _, _. split; [reflexivity|].
    split; [apply int_of_Q_floor, Q_of_finite_nonneg|]. split; lia.
Qed.

(** *** The accumulated loss of an epoch *)

Lemma clamp_loss_le_1 (x : pyfloat) : fle (clamp_loss x) (of_int 1) = true.
Proof.
  unfold clamp_loss. destruct (fle x (of_int 1)) eqn:H; [exact H|reflexivity].
Qed.


(** *** The checkpoint policy *)

Lemma no_save_in_batches (p : Z) (n : nat) :
  forall (g : Z) (f : string), ~ In (EvSave f) (batches_events p n g).
Proof.
  induction n as [|n IH]; intros g f; cbn; [tauto|].
  intros [H|H]; [discriminate|].
  apply in_app_or in H. destruct H as [H|H]; [|exact (IH _ _ H)].
  destruct ((g + 1) mod p =? 0); cbn in H; [destruct H as [H|[]]|destruct H].
  discriminate.
Qed.


(** C7. With [save_cp] on, every epoch calls [os.mkdir(dir_checkpoint)].
    When the call raises OSError (the directory is there already), the
    [try] block returns normally and the only difference in the world is
    the log of the call: model, optimizer, directories and files are as
    before and no variable of [train_net] changes; the comparison with
    [best_loss] and the save then run as they do after a successful
    [mkdir]. *)
Theorem mkdir_error_swallowed (model : net) (n_train : Z) (nb : nat)
  (epoch : Z) (st : locals) (w : world) :
  (undisturbed model -> n_train / 10 <> 0 ->
   exists w' st' evs1 created evs2,
     train_epoch model n_train nb true epoch st w = (w', Returned st')
     /\ trace w' = trace w ++ evs1
                     ++ EvMkdir dir_checkpoint created :: evs2)
  /\ (dir_checkpoint ∈ dirs w ->
      os_mkdir dir_checkpoint w =
        (add_events w [EvMkdir dir_checkpoint false], Raised OSError)
      /\ try_mkdir w =
           (add_events w [EvMkdir dir_checkpoint false], Returned tt)
      /\ save_checkpoint epoch st w =
           if flt (epoch_loss st) (best_loss st)
           then (world_after_save (checkpoint_name epoch (epoch_loss st))
                   (add_events w [EvMkdir dir_checkpoint false]),
                 Returned (mkLocals (global_step st) (epoch_loss st)
                             (epoch_loss st)))
           else (add_events w [EvMkdir dir_checkpoint false], Returned st)).
Proof.
  split.
  - intros Hu Hp.
    destruct (train_epoch_run model n_train nb true epoch st w Hu Hp)
      as (w' & st' & Hrun & Htr & _).
    unfold epoch_events, checkpoint_events in Htr.
    eexists w', st', (batches_events (n_train / 10) nb (global_step st)
                        ++ [EvSchedStep epoch]), _, _.
    split; [exact Hrun|]. rewrite Htr, <- !app_assoc. reflexivity.
  - intros Hdir.
    assert (Hmk : world_after_mkdir w
                  = add_events w [EvMkdir dir_checkpoint false]).
    { unfold world_after_mkdir. now rewrite decide_True by assumption. }
    split; [|split].
    + unfold os_mkdir. now rewrite decide_True by assumption.
    + now rewrite try_mkdir_eq, Hmk.
    + now rewrite save_checkpoint_eq, Hmk.
Qed.

(** *** The modulus of the validation check *)

Lemma train_batch_zero_period (model : net) (n_train : Z) (st : locals)
  (w : world) :
  undisturbed model ->
  n_train / 10 = 0 ->
  train_batch model n_train st w =
    (fst (optimizer_step (global_step st) w), Raised ZeroDivisionError).
Proof.
  intros [Hint Hch] Hp.
  unfold train_batch, bind. rewrite Hint. cbn.
  rewrite Hch, Z.eqb_refl. cbn.
  unfold optimizer_step, pymod.
  destruct (optim_step (global_step st) (model_state w, optimizer_state w))
    as [m o].
  rewrite Hp. reflexivity.
Qed.

Lemma for_range_raise {S : Type} (body : Z -> S -> M S) (n : nat) (i : Z)
  (s : S) (w w' : world) (e : exn) :
  body i s w = (w', Raised e) ->
  for_range (Datatypes.S n) i body s w = (w', Raised e).
Proof. intros H. cbn. unfold bind. now rewrite H. Qed.

Lemma batches_per_epoch_pos (n_train batch_size : Z) :
  0 < batch_size -> 1 <= n_train ->
  exists k, batches_per_epoch n_train batch_size = Datatypes.S k.
Proof.
  intros Hb Hn. unfold batches_per_epoch.
  assert (1 <= (n_train + batch_size - 1) / batch_size).
  { apply Z.div_le_lower_bound; lia. }
  exists (Nat.pred (Z.to_nat ((n_train + batch_size - 1) / batch_size))).
  lia.
Qed.

(** C8. For a training set of at least ten samples the modulus
    [n_train // 10] of the validation check is not zero, and no batch ends
    in ZeroDivisionError.  For a training set of fewer than ten samples
    the modulus is zero and the check raises ZeroDivisionError: the first
    batch of the first epoch takes its optimizer step and then the run
    ends with that error. *)
Theorem validation_modulus (model : net) (epochs batch_size : Z)
  (val_percent : Q) (save_cp : bool) (n_train : Z) (st : locals) (w : world) :
  (10 <= n_train ->
   n_train / 10 <> 0
   /\ (forall g w0, pymod g (n_train / 10) w0
                    = (w0, Returned (g mod (n_train / 10))))
   /\ snd (train_batch model n_train st w) <> Raised ZeroDivisionError)
  /\ (0 <= n_train < 10 ->
      n_train / 10 = 0
      /\ (forall g w0, pymod g (n_train / 10) w0
                       = (w0, Raised ZeroDivisionError))
      /\ (undisturbed model ->
          train_batch model n_train st w =
            (fst (optimizer_step (global_step st) w),
             Raised ZeroDivisionError))
      /\ (undisturbed model -> 0 < batch_size -> 0 < epochs ->
          n_train = fst (split_sizes (Z.of_N (len_dataset E)) val_percent) ->
          1 <= n_train ->
          train_net model epochs batch_size val_percent save_cp w =
            (fst (optimizer_step 0 w), Raised ZeroDivisionError))).
Proof.
  split.
  - intros Hn.
    assert (Hp : n_train / 10 <> 0).
    { assert (1 <= n_train / 10) by (apply Z.div_le_lower_bound; lia). lia. }
    split; [exact Hp|]. split.
    + intros g w0. unfold pymod. apply Z.eqb_neq in Hp. now rewrite Hp.
    + unfold train_batch, bind, pymod, optimizer_step, eval_net, emit, ret,
        raise.
      apply Z.eqb_neq in Hp. rewrite Hp.
      destruct (interrupt_at E) as [g|];
        [destruct (g =? global_step st)|];
        destruct (batch_channels E (global_step st) =? n_channels model);
        destruct (optim_step (global_step st)
                    (model_state w, optimizer_state w));
        try destruct ((global_step st + 1) mod (n_train / 10) =? 0);
        cbn; discriminate.
  - intros Hn.
    assert (Hp : n_train / 10 = 0) by (apply Z.div_small; lia).
    split; [exact Hp|]. split; [|split].
    + intros g w0. unfold pymod. now rewrite Hp.
    + intros Hu. now apply train_batch_zero_period.
    + intros Hu Hbs He Hsplit H1.
      rewrite train_net_eq by lia. rewrite <- Hsplit.
      destruct (batches_per_epoch_pos n_train batch_size Hbs H1) as [k Hk].
      rewrite Hk.
      destruct (Z.to_nat epochs) as [|e] eqn:Hen; [lia|].
      apply for_range_raise.
      unfold train_epoch, bind.
      rewrite (for_range_raise _ k 0 _ w (fst (optimizer_step 0 w))
                 ZeroDivisionError); [reflexivity|].
      now apply train_batch_zero_period.
Qed.

Lemma count_app (f : event -> bool) (xs ys : list event) :
  count f (xs ++ ys) = (count f xs + count f ys)%nat.
Proof. induction xs as [|x xs IH]; cbn; [reflexivity|]. rewrite IH. lia. Qed.

Lemma div_succ (p g : Z) :
  0 < p -> (g + 1) / p - g / p = if (g + 1) mod p =? 0 then 1 else 0.
Proof.
  intros Hp. destruct ((g + 1) mod p =? 0) eqn:Hm.
  - apply Z.eqb_eq in Hm. Z.to_euclidean_division_equations. nia.
  - apply Z.eqb_neq in Hm. Z.to_euclidean_division_equations. nia.
Qed.

Lemma count_eval_batches (p : Z) (n : nat) :
  0 < p ->
  forall g, Z.of_nat (count is_eval (batches_events p n g))
            = (g + Z.of_nat n) / p - g / p.
Proof.
  intros Hp. induction n as [|n IH]; intros g.
  - cbn. rewrite Z.add_0_r. lia.
  - cbn [batches_events batch_events]. rewrite count_app.
    rewrite Nat2Z.inj_add, IH.
    replace (g + Z.of_nat (Datatypes.S n)) with (g + 1 + Z.of_nat n) by lia.
    pose proof (div_succ p g Hp) as Hd. unfold batch_events. revert Hd.
    destruct ((g + 1) mod p =? 0); cbn; lia.
Qed.

Lemma count_sched_batches (p : Z) (n : nat) :
  forall g, count is_sched (batches_events p n g) = 0%nat.
Proof.
  induction n as [|n IH]; intros g; [reflexivity|].
  cbn [batches_events]. unfold batch_events. rewrite count_app, IH.
  destruct ((g + 1) mod p =? 0); reflexivity.
Qed.

Lemma in_eval_batches (p : Z) (n : nat) :
  forall g0 g, In (EvEval g) (batches_events p n g0)
               <-> (g0 < g <= g0 + Z.of_nat n /\ g mod p = 0).
Proof.
  induction n as [|n IH]; intros g0 g.
  - cbn. split; [tauto|lia].
  - cbn [batches_events]. unfold batch_events. rewrite in_app_iff, IH.
    destruct ((g0 + 1) mod p =? 0) eqn:Hm.
    + apply Z.eqb_eq in Hm. cbn. split.
      * intros [[H|[H|[]]]|H]; [discriminate| |lia].
        injection H as <-. split; [lia|exact Hm].
      * intros [Hr Hg]. destruct (Z.eq_dec g (g0 + 1)) as [->|Hne].
        -- left. right. left. reflexivity.
        -- right. split; [lia|exact Hg].
    + apply Z.eqb_neq in Hm. cbn. split.
      * intros [[H|[]]|H]; [discriminate|lia].
      * intros [Hr Hg]. right. split; [|exact Hg].
        destruct (Z.eq_dec g (g0 + 1)) as [->|Hne]; [contradiction|lia].
Qed.

Lemma count_sched_epoch (p : Z) (nb : nat) (save_cp : bool) (epoch : Z)
  (st : locals) (w : world) :
  count is_sched (epoch_events p nb save_cp epoch st w) = 1%nat.
Proof.
  unfold epoch_events, checkpoint_events. rewrite count_app, count_sched_batches.
  destruct save_cp; [destruct (flt _ _)|]; reflexivity.
Qed.

Lemma in_eval_epoch (p : Z) (nb : nat) (save_cp : bool) (epoch : Z)
  (st : locals) (w : world) (g : Z) :
  In (EvEval g) (epoch_events p nb save_cp epoch st w)
  <-> (global_step st < g <= global_step st + Z.of_nat nb /\ g mod p = 0).
Proof.
  unfold epoch_events, checkpoint_events.
  rewrite in_app_iff, in_eval_batches. split; [|tauto].
  intros [H|H]; [exact H|].
  destruct save_cp; [destruct (flt _ _)|]; cbn in H;
    repeat (destruct H as [H|H]; try discriminate); destruct H.
Qed.

Lemma count_eval_epoch (p : Z) (nb : nat) (save_cp : bool) (epoch : Z)
  (st : locals) (w : world) :
  0 < p ->
  Z.of_nat (count is_eval (epoch_events p nb save_cp epoch st w))
  = (global_step st + Z.of_nat nb) / p - global_step st / p.
Proof.
  intros Hp. unfold epoch_events, checkpoint_events.
  rewrite count_app, Nat2Z.inj_add, count_eval_batches by assumption.
  destruct save_cp; [destruct (flt _ _)|]; cbn; lia.
Qed.

(** A whole run, when nothing disturbs it: [train_net] returns, having
    counted every batch of every epoch in [global_step], stepped the
    scheduler once per epoch and validated at the multiples of the
    period. *)
Lemma train_net_run (model : net) (epochs batch_size : Z) (val_percent : Q)
  (save_cp : bool) (w : world) :
  let n_train := fst (split_sizes (Z.of_N (len_dataset E)) val_percent) in
  let nb := batches_per_epoch n_train batch_size in
  undisturbed model ->
  0 < batch_size ->
  epochs <> 0 ->
  n_train / 10 <> 0 ->
  exists (w' : world) (st' : locals) (evs : list event),
    train_net model epochs batch_size val_percent save_cp w
      = (w', Returned st')
    /\ trace w' = trace w ++ evs
    /\ global_step st' = Z.of_nat (Z.to_nat epochs) * Z.of_nat nb
    /\ count is_sched evs = Z.to_nat epochs
    /\ (forall g, In (EvEval g) evs
                  <-> (1 <= g <= global_step st'
                       /\ g mod (n_train / 10) = 0)).
Proof.
  intros n_train nb Hu Hbs He Hp.
  rewrite train_net_eq by assumption. fold n_train. fold nb.
  pose (I := fun (i : Z) (st : locals) (w1 : world) =>
    0 <= i /\ global_step st = i * Z.of_nat nb
    /\ exists evs, trace w1 = trace w ++ evs
         /\ Z.of_nat (count is_sched evs) = i
         /\ (forall g, In (EvEval g) evs
                <-> (1 <= g <= i * Z.of_nat nb
                     /\ g mod (n_train / 10) = 0))).
  destruct (for_range_inv I (train_epoch model n_train nb save_cp))
    with (n := Z.to_nat epochs) (i := 0) (s := initial_locals) (w := w)
    as (w' & st' & Hrun & Hi & Hg & evs & Htr & Hc & Hin).
  - intros i st w1 (Hi & Hg & evs & Htr & Hc & Hin).
    destruct (train_epoch_run model n_train nb save_cp i st w1 Hu Hp)
      as (w2 & st2 & Hrun & Htr2 & Hg2 & _).
    exists w2, st2. split; [exact Hrun|]. split; [lia|]. split; [lia|].
    exists (evs ++ epoch_events (n_train / 10) nb save_cp i st w1).
    split; [rewrite Htr2, Htr; now rewrite app_assoc|].
    split; [rewrite count_app, count_sched_epoch; lia|].
    intros g. rewrite in_app_iff, Hin, in_eval_epoch, Hg. nia.
  - unfold I. split; [lia|]. split; [reflexivity|].
    exists []. split; [now rewrite app_nil_r|]. split; [reflexivity|].
    intros g. cbn. lia.
  - exists w', st', evs. rewrite Z.add_0_l in *.
    split; [exact Hrun|]. split; [exact Htr|]. split; [exact Hg|].
    split; [lia|]. intros g. rewrite Hin, Hg. tauto.
Qed.

(** *** The learning-rate schedule *)

Lemma pow_float_1 (b : R) : (0 <= b)%R -> pow_float b 1 = b.
Proof.
  intros Hb. unfold pow_float. destruct (Rlt_dec 0 b) as [H|H].
  - now apply Rpower_1.
  - lra.
Qed.

Lemma lf_value (epochs : Z) (x : R) :
  epochs <> 0 ->
  lf epochs x = Some ((1 + cos (x * PI / IZR epochs)) / 2 * 0.95 + 0.05)%R.
Proof.
  intros He. unfold lf. apply Z.eqb_neq in He. rewrite He.
  rewrite pow_float_1; [reflexivity|].
  pose proof (COS_bound (x * PI / IZR epochs)) as [Hl _]. lra.
Qed.

Lemma angle_bounds (e x y : R) :
  (0 < e)%R -> (0 <= x)%R -> (x <= y)%R -> (y <= e)%R ->
  (0 <= x * PI / e /\ x * PI / e <= y * PI / e /\ y * PI / e <= PI)%R.
Proof.
  intros He Hx Hxy Hy.
  pose proof PI_RGT_0 as Hpi.
  assert (Hk : (0 < / e)%R) by now apply Rinv_0_lt_compat.
  assert (Hek : (e * / e = 1)%R) by (apply Rinv_r; lra).
  unfold Rdiv. set (k := (/ e)%R) in *.
  assert (0 <= x * k)%R by nra.
  assert (x * k <= y * k)%R by nra.
  assert (y * k <= 1)%R by nra.
  repeat split; nra.
Qed.

Lemma lf_monotone (epochs : Z) (x y : R) :
  epochs <> 0 ->
  (0 <= x)%R -> (x <= y)%R -> (y <= IZR epochs)%R ->
  exists a b, lf epochs x = Some a /\ lf epochs y = Some b /\ (b <= a)%R.
Proof.
  intros He Hx Hxy Hy.
  rewrite !lf_value by assumption. eexists; eexists.
  split; [reflexivity|]. split; [reflexivity|].
  assert (Hpos : (0 < IZR epochs)%R).
  { pose proof (not_0_IZR epochs He). lra. }
  destruct (angle_bounds (IZR epochs) x y Hpos Hx Hxy Hy) as (H0 & Hle & Hpi).
  assert (cos (y * PI / IZR epochs) <= cos (x * PI / IZR epochs))%R.
  { apply cos_decr_1; lra. }
  lra.
Qed.


(** *** The validation cadence *)

Lemma div_window (p n g : Z) :
  0 < p -> 10 * p <= n -> 10 <= (g + n) / p - g / p.
Proof.
  intros Hp Hn.
  assert (g / p + 10 <= (g + n) / p); [|lia].
  rewrite <- (Z.div_add g 10 p) by lia.
  apply Z.div_le_mono; lia.
Qed.


(** *** The interrupt handler *)

(** C2, as amended. When the body under the [try] of the main block
    raises KeyboardInterrupt, the handler first saves to
    ['INTERRUPTED.pt'] a checkpoint holding the model state and the
    optimizer state of that moment; every other exception of the body
    leaves the main block as it is, with nothing saved: KeyboardInterrupt
    is the only exception caught around [train_net].  It is not the only
    one the script catches: the OSError of [os.mkdir] is caught inside
    [train_net], and the SystemExit of [sys.exit] inside the handler. *)
Theorem interrupt_saves_checkpoint (A : Type) (body : M A) (w w' : world)
  (e : exn) :
  (body w = (w', Raised KeyboardInterrupt) ->
   fst (guarded body w) = world_after_save "INTERRUPTED.pt" w'
   /\ files (fst (guarded body w)) !! "INTERRUPTED.pt"
      = Some (checkpoint_of w')
   /\ checkpoint_of w' !! "model" = Some (model_state w')
   /\ checkpoint_of w' !! "optimizer" = Some (optimizer_state w'))
  /\ (e <> KeyboardInterrupt -> body w = (w', Raised e) ->
      guarded body w = (w', Raised e))
  /\ (dir_checkpoint ∈ dirs w ->
      snd (os_mkdir dir_checkpoint w) = Raised OSError
      /\ snd (try_mkdir w) = Returned tt)
  /\ (snd (sys_exit 0 w) = Raised (SystemExit 0)
      /\ forall w0, snd (on_interrupt w0) <> Raised (SystemExit 0)).
Proof.
  split; [|split; [|split]].
  - intros Hb.
    assert (Hg : fst (guarded body w) = world_after_save "INTERRUPTED.pt" w').
    { unfold guarded, try_except, bind. rewrite Hb. reflexivity. }
    rewrite Hg. split; [reflexivity|]. split; [|split].
    + cbn. apply lookup_insert_eq.
    + unfold checkpoint_of. rewrite lookup_insert_ne by discriminate.
      apply lookup_insert_eq.
    + unfold checkpoint_of. apply lookup_insert_eq.
  - intros Hne Hb. unfold guarded, try_except, bind. rewrite Hb.
    destruct e; try reflexivity. contradiction.
  - intros Hdir. split.
    + unfold os_mkdir. now rewrite decide_True by assumption.
    + now rewrite try_mkdir_eq.
  - split; [reflexivity|]. intros w0. cbn. discriminate.
Qed.

(** ** Further properties of the script *)

(** *** Loading a checkpoint that is not what [save_pt] wrote *)

(** X1. [load_pt] on a path that holds no file raises FileNotFoundError
    and loads nothing.  On a file whose dict has no ['model'] key it
    raises KeyError and loads nothing.  On a file whose dict has
    ['model'] but no ['optimizer'] it raises KeyError after the model
    state has been replaced: the model is loaded, the optimizer is
    not. *)
Theorem load_pt_failures (f : string) (w : world)
  (checkpoint : gmap string state_dict) (m : state_dict) :
  (files w !! f = None ->
   load_pt f w = (w, Raised (FileNotFoundError f)))
  /\ (files w !! f = Some checkpoint -> checkpoint !! "model" = None ->
      load_pt f w = (w, Raised (KeyError "model")))
  /\ (files w !! f = Some checkpoint -> checkpoint !! "model" = Some m ->
      checkpoint !! "optimizer" = None ->
      load_pt f w =
        (mkWorld m (optimizer_state w) (dirs w) (files w) (trace w),
         Raised (KeyError "optimizer"))).
Proof.
  split; [|split].
  - intros Hf. unfold load_pt, bind, torch_load. now rewrite Hf.
  - intros Hf Hm. unfold load_pt, bind, torch_load, getitem.
    rewrite Hf, Hm. reflexivity.
  - intros Hf Hm Ho. unfold load_pt, bind, torch_load, getitem.
    rewrite Hf, Hm. cbn. rewrite Ho. reflexivity.
Qed.

(** *** What [save_pt] leaves alone *)

Lemma load_pt_saved (f : string) (w w2 : world) :
  files w2 !! f = Some (checkpoint_of w) ->
  load_pt f w2 =
    (mkWorld (model_state w) (optimizer_state w) (dirs w2) (files w2)
             (trace w2), Returned tt).
Proof.
  intros Hf. unfold load_pt, bind, torch_load, getitem. rewrite Hf.
  unfold checkpoint_of at 1. rewrite lookup_insert_ne by discriminate.
  rewrite lookup_insert_eq. cbn.
  unfold checkpoint_of. rewrite lookup_insert_eq. reflexivity.
Qed.

(** X2. [save_pt] returns normally; it changes neither the model nor the
    optimizer nor the directories; whatever the path held before, it now
    holds the current states; every other file is as it was; and
    [load_pt] from the path right after is a no-op. *)
Theorem save_pt_frame (f f' : string) (w : world) :
  snd (save_pt f w) = Returned tt
  /\ states (fst (save_pt f w)) = states w
  /\ dirs (fst (save_pt f w)) = dirs w
  /\ files (fst (save_pt f w)) !! f = Some (checkpoint_of w)
  /\ (f' <> f -> files (fst (save_pt f w)) !! f' = files w !! f')
  /\ load_pt f (fst (save_pt f w)) = (fst (save_pt f w), Returned tt).
Proof.
  split; [reflexivity|]. split; [reflexivity|]. split; [reflexivity|].
  split; [cbn; apply lookup_insert_eq|]. split.
  - intros Hne. cbn. now rewrite lookup_insert_ne.
  - rewrite (load_pt_saved f w (fst (save_pt f w)))
      by (cbn; apply lookup_insert_eq).
    reflexivity.
Qed.

(** *** How the main block ends *)

(** X3. When the body under the [try] returns, the main block returns
    and adds nothing.  When it raises KeyboardInterrupt, the handler
    saves, [sys.exit(0)] raises SystemExit, the inner [except
    SystemExit] takes it and calls [os.exit], which module [os] does not
    have: the main block ends with AttributeError, not with the exit
    status 0 that was asked for. *)
Theorem main_block_outcome (A : Type) (body : M A) (w w' : world) (a : A) :
  (body w = (w', Returned a) -> guarded body w = (w', Returned tt))
  /\ (body w = (w', Raised KeyboardInterrupt) ->
      guarded body w =
        (world_after_save "INTERRUPTED.pt" w', Raised AttributeError)).
Proof.
  split; intros Hb; unfold guarded, try_except, bind; rewrite Hb; reflexivity.
Qed.

(** *** The channel assertion *)

Lemma train_net_first_batch_raises (model : net) (epochs batch_size : Z)
  (val_percent : Q) (save_cp : bool) (w w' : world) (e : exn) :
  0 < batch_size -> 0 < epochs ->
  1 <= fst (split_sizes (Z.of_N (len_dataset E)) val_percent) ->
  train_batch model (fst (split_sizes (Z.of_N (len_dataset E)) val_percent))
    initial_locals w = (w', Raised e) ->
  train_net model epochs batch_size val_percent save_cp w = (w', Raised e).
Proof.
  intros Hbs He H1 Hb.
  rewrite train_net_eq by lia.
  destruct (batches_per_epoch_pos _ batch_size Hbs H1) as [k Hk].
  rewrite Hk.
  destruct (Z.to_nat epochs) as [|n] eqn:Hen; [lia|].
  apply for_range_raise.
  unfold train_epoch, bind.
  rewrite (for_range_raise _ k 0 _ w w' e); [reflexivity|].
  exact Hb.
Qed.

Lemma select_model_channels (unet_type : string) :
  n_channels (select_model unet_type) = 3.
Proof.
  unfold select_model.
  destruct (String.eqb unet_type "v2"), (String.eqb unet_type "v3");
    reflexivity.
Qed.

(** X4. A batch whose images do not have the channel count of the model
    fails the assertion before anything is done with it: no optimizer
    step, no change of [global_step], nothing logged.  The models that
    the main block builds all have three input channels, so on a dataset
    whose first batch has another channel count the whole program ends
    with AssertionError, which the main block does not catch, without
    having made one of the logged calls (no optimizer step, no
    validation, no scheduler step, no [os.mkdir], no [torch.save]) and
    with the model holding what it held. *)
Theorem channel_assertion (model : net) (n_train : Z) (st : locals)
  (a : args) (w : world) :
  (interrupt_at E <> Some (global_step st) ->
   batch_channels E (global_step st) <> n_channels model ->
   train_batch model n_train st w = (w, Raised AssertionError))
  /\ (interrupt_at E <> Some 0 ->
      batch_channels E 0 <> 3 ->
      0 < batchsize a -> 0 < epochs a ->
      1 <= fst (split_sizes (Z.of_N (len_dataset E)) (val a / 100)) ->
      snd (main a w) = Raised AssertionError
      /\ trace (fst (main a w)) = trace w
      /\ model_state (fst (main a w)) = model_state w).
Proof.
  assert (Hbatch : forall model n_train st,
            interrupt_at E <> Some (global_step st) ->
            batch_channels E (global_step st) <> n_channels model ->
            train_batch model n_train st w = (w, Raised AssertionError)).
  { intros model0 n0 st0 Hint Hch. unfold train_batch, bind.
    apply Z.eqb_neq in Hch. rewrite Hch.
    destruct (interrupt_at E) as [g|]; [|reflexivity].
    destruct (g =? global_step st0) eqn:Hg; [|reflexivity].
    apply Z.eqb_eq in Hg. congruence. }
  split; [apply Hbatch|].
  intros Hint Hch Hbs He H1.
  assert (Hmain : main a w = (w, Raised AssertionError)).
  { unfold main, guarded, try_except, bind.
    rewrite (train_net_first_batch_raises _ _ _ _ true w w AssertionError);
      try assumption; [reflexivity|].
    apply Hbatch; [exact Hint|].
    cbn [global_step initial_locals]. now rewrite select_model_channels. }
  rewrite Hmain. repeat split.
Qed.

(** *** The split outside the floor *)

Lemma int_of_Q_ceiling (x : Q) : (x <= 0)%Q -> int_of_Q x = Qceiling x.
Proof.
  destruct x as [n d]. unfold Qle, int_of_Q, Qceiling, Qfloor, Qopp. cbn.
  intros H.
  rewrite <- (Z.quot_div_nonneg (- n) (Z.pos d)) by lia.
  rewrite Z.quot_opp_l by lia. lia.
Qed.

(** X5. [int()] rounds toward zero and refuses what is no number.  For
    every float [val_percent], of either sign, finite or not: when the
    binary64 product is NaN the split raises ValueError, when it is an
    infinity OverflowError; otherwise it returns, the two sizes add up
    to the length of the dataset, [n_val] is the floor of the product
    when the product is not negative and its ceiling when it is not
    positive; and a [val_percent] that is not negative never gives a
    negative [n_val]. *)
Theorem split_rounds_toward_zero (len : N) (val_percent : float) :
  Z.of_N len < 2 ^ 63 ->
  let product := (float_of_len (Z.of_N len) * val_percent)%float in
  match Prim2SF product with
  | S754_nan =>
      split_sizes_float (Z.of_N len) val_percent = Raised ValueError
  | S754_infinity _ =>
      split_sizes_float (Z.of_N len) val_percent = Raised OverflowError
  | _ =>
      exists n_train n_val q,
        split_sizes_float (Z.of_N len) val_percent = Returned (n_train, n_val)
        /\ float_value product = Some q
        /\ n_train + n_val = Z.of_N len
        /\ ((0 <= q)%Q -> n_val = Qfloor q)
        /\ ((q <= 0)%Q -> n_val = Qceiling q)
        /\ ((0 <=? val_percent)%float = true -> 0 <= n_val)
  end.
Proof.
  intros _ product.
  pose proof (product_sign (Z.of_N len) val_percent) as Hs.
  fold product in Hs.
  unfold float_value, split_sizes_float, int_of_float. fold product.
  destruct (Prim2SF product) as [s|s| |s m e]; try reflexivity.
  - exists (Z.of_N len - 0), 0, 0%Q. split; [reflexivity|].
    split; [reflexivity|]. split; [lia|].
    split; [intros _; reflexivity|]. split; [intros _; reflexivity|].
    intros _. lia.
  - eexists _, _, _. split; [reflexivity|]. split; [reflexivity|].
    split; [lia|]. split; [apply int_of_Q_floor|].
    split; [apply int_of_Q_ceiling|].
    intros Hv. rewrite (Hs Hv), int_of_Q_floor by apply Q_of_finite_nonneg.
    rewrite <- (Qfloor_Z 0). apply Qfloor_resp_le, Q_of_finite_nonneg.
Qed.

(** *** The modulus for every [n_train] *)

(** X7. [n_train // 10] is zero exactly for [n_train] from 0 to 9, so an
    undisturbed batch ends in ZeroDivisionError exactly then.  A negative
    [n_train] gives a negative modulus and the check never raises; from
    -10 to -1 the modulus is -1 and every global step counts as a
    multiple. *)
Theorem modulus_zero_iff (model : net) (n_train : Z) (st : locals)
  (w : world) :
  (n_train / 10 = 0 <-> 0 <= n_train < 10)
  /\ (undisturbed model ->
      (snd (train_batch model n_train st w) = Raised ZeroDivisionError
       <-> 0 <= n_train < 10))
  /\ (n_train < 0 -> n_train / 10 < 0)
  /\ (-10 <= n_train < 0 -> forall g, g mod (n_train / 10) = 0).
Proof.
  assert (Hiff : n_train / 10 = 0 <-> 0 <= n_train < 10).
  { rewrite Z.div_small_iff by lia. lia. }
  split; [exact Hiff|]. split; [|split].
  - intros Hu. split.
    + intros Hr. apply Hiff.
      destruct (Z.eq_dec (n_train / 10) 0) as [Hz|Hnz]; [exact Hz|].
      rewrite train_batch_ok in Hr by assumption. discriminate.
    + intros Hn. apply Hiff in Hn.
      now rewrite train_batch_zero_period.
  - intros Hn. apply Z.div_lt_upper_bound; lia.
  - intros Hn g.
    assert (Hm1 : n_train / 10 = -1).
    { symmetry. apply (Z.div_unique n_train 10 (-1) (n_train + 10)); lia. }
    rewrite Hm1. Z.to_euclidean_division_equations. lia.
Qed.

(** *** The order on accumulated losses *)

Lemma fle_trans (a b c : pyfloat) :
  fle a b = true -> fle b c = true -> fle a c = true.
Proof.
  destruct a as [x| | |], b as [y| | |], c as [z| | |]; cbn;
    try discriminate; try reflexivity.
  intros Hxy Hyz. apply Qle_bool_iff. apply Qle_bool_iff in Hxy, Hyz.
  now apply (Qle_trans _ y).
Qed.

Lemma fle_refl (a : pyfloat) : bounded_above a = true -> fle a a = true.
Proof.
  destruct a as [x| | |]; cbn; try discriminate; try reflexivity.
  intros _. apply Qle_bool_iff. apply Qle_refl.
Qed.

Lemma flt_fle (a b : pyfloat) : flt a b = true -> fle a b = true.
Proof.
  destruct a as [x| | |], b as [y| | |]; cbn;
    try discriminate; try reflexivity.
  intros H. apply Qle_bool_iff.
  destruct (Qle_bool y x) eqn:Hyx; [discriminate|].
  apply Qlt_le_weak. apply Qnot_le_lt. intros Hle.
  apply Qle_bool_iff in Hle. congruence.
Qed.

Lemma flt_false_fle (a b : pyfloat) :
  bounded_above a = true -> bounded_above b = true ->
  flt a b = false -> fle b a = true.
Proof.
  destruct a as [x| | |], b as [y| | |]; cbn;
    try discriminate; try reflexivity.
  intros _ _ H. now destruct (Qle_bool y x).
Qed.

Lemma fle_of_int_lt (a : pyfloat) (k K : Z) :
  fle a (of_int k) = true -> k < K -> flt a (of_int K) = true.
Proof.
  destruct a as [x| | |]; cbn; try discriminate; try reflexivity.
  intros Hx Hk. apply Qle_bool_iff in Hx.
  destruct (Qle_bool (inject_Z K) x) eqn:HK; [|reflexivity].
  apply Qle_bool_iff in HK. exfalso.
  assert (H : (inject_Z K <= inject_Z k)%Q) by now apply (Qle_trans _ x).
  rewrite <- Zle_Qle in H. lia.
Qed.

Lemma bounded_above_fle (a : pyfloat) (k : Z) :
  fle a (of_int k) = true -> bounded_above a = true.
Proof. destruct a; cbn; try discriminate; reflexivity. Qed.

Lemma bounded_above_clamped_sum (n : nat) (g : Z) :
  bounded_above (clamped_sum n g (of_int 0)) = true.
Proof.
  apply (bounded_above_fle _ (0 + Z.of_nat n)).
  apply clamped_sum_le. reflexivity.
Qed.

(** *** Which epochs save *)

(** X8. An epoch entered with [best_loss = 10000], as the first epoch of
    every run is, saves a checkpoint whatever the batch losses are, NaN
    and infinite ones included, as long as it has fewer than 10000
    batches: a batch loss that is not at most 1 counts as 1, so the
    accumulated loss stays below 10000. *)
Theorem first_epoch_saves (model : net) (n_train : Z) (nb : nat) (epoch : Z)
  (g : Z) (w : world) :
  undisturbed model ->
  n_train / 10 <> 0 ->
  Z.of_nat nb < 10000 ->
  exists w' st',
    train_epoch model n_train nb true epoch
      (mkLocals g (of_int 10000) (of_int 0)) w = (w', Returned st')
    /\ flt (epoch_loss st') (of_int 10000) = true
    /\ files w' !! checkpoint_name epoch (epoch_loss st')
       = Some (checkpoint_of w')
    /\ best_loss st' = epoch_loss st'.
Proof.
  intros Hu Hp Hnb.
  destruct (train_epoch_run model n_train nb true epoch
              (mkLocals g (of_int 10000) (of_int 0)) w Hu Hp)
    as (w' & st' & Hrun & _ & _ & Hbest & Hel & _ & _ & Hfiles).
  cbn [global_step best_loss] in *.
  assert (Hlt : flt (clamped_sum nb g (of_int 0)) (of_int 10000) = true).
  { apply (fle_of_int_lt _ (0 + Z.of_nat nb)); [|lia].
    apply clamped_sum_le. reflexivity. }
  unfold next_best in Hbest. rewrite Hlt in Hbest, Hfiles. cbn in Hbest, Hfiles.
  exists w', st'. rewrite Hel.
  split; [exact Hrun|]. split; [exact Hlt|]. split; [|exact Hbest].
  rewrite Hfiles. apply lookup_insert_eq.
Qed.


(** *** What a run never does to the file system *)

Lemma fs_same_refl (w : world) : fs_same w w.
Proof. split; reflexivity. Qed.

Lemma fs_same_trans (w1 w2 w3 : world) :
  fs_same w1 w2 -> fs_same w2 w3 -> fs_same w1 w3.
Proof. intros [Hd Hf] [Hd' Hf']. split; congruence. Qed.

Lemma fs_extends_refl (w : world) : fs_extends w w.
Proof. split; reflexivity. Qed.

Lemma fs_extends_trans (w1 w2 w3 : world) :
  fs_extends w1 w2 -> fs_extends w2 w3 -> fs_extends w1 w3.
Proof. intros [Hd Hf] [Hd' Hf']. split; set_solver. Qed.

Lemma fs_same_extends (w w' : world) : fs_same w w' -> fs_extends w w'.
Proof. intros [Hd Hf]. split; [rewrite Hd|rewrite Hf]; reflexivity. Qed.

Section Keeps.

Variable R : world -> world -> Prop.
Hypothesis R_refl : forall w, R w w.
Hypothesis R_trans : forall w1 w2 w3, R w1 w2 -> R w2 w3 -> R w1 w3.

Lemma keeps_ret {A : Type} (a : A) : keeps R (ret a).
Proof. intros w. apply R_refl. Qed.

Lemma keeps_raise {A : Type} (e : exn) : keeps R (@raise A e).
Proof. intros w. apply R_refl. Qed.

Lemma keeps_bind {A B : Type} (c : M A) (k : A -> M B) :
  keeps R c -> (forall a, keeps R (k a)) -> keeps R (bind c k).
Proof.
  intros Hc Hk w. unfold bind. specialize (Hc w).
  destruct (c w) as [w1 [a|e]]; cbn in *; [|exact Hc].
  exact (R_trans _ _ _ Hc (Hk a w1)).
Qed.

Lemma keeps_try_except {A : Type} (c : M A) (h : exn -> M A) :
  keeps R c -> (forall e, keeps R (h e)) -> keeps R (try_except c h).
Proof.
  intros Hc Hh w. unfold try_except. specialize (Hc w).
  destruct (c w) as [w1 [a|e]]; cbn in *; [exact Hc|].
  exact (R_trans _ _ _ Hc (Hh e w1)).
Qed.

Lemma keeps_for_range {S : Type} (body : Z -> S -> M S) :
  (forall i s, keeps R (body i s)) ->
  forall n i s, keeps R (for_range n i body s).
Proof.
  intros Hb. induction n as [|n IH]; intros i s; cbn [for_range].
  - apply keeps_ret.
  - apply keeps_bind; [apply Hb|]. intros s'. apply IH.
Qed.

End Keeps.

Lemma keeps_weaken {A : Type} (R R' : world -> world -> Prop) (c : M A) :
  (forall w w', R w w' -> R' w w') -> keeps R c -> keeps R' c.
Proof. intros H Hc w. apply H, Hc. Qed.

Lemma train_batch_fs_same (model : net) (n_train : Z) (st : locals) :
  keeps fs_same (train_batch model n_train st).
Proof.
  unfold train_batch. cbv zeta.
  repeat (apply (keeps_bind _ fs_same_trans); [|intros ?]).
  - destruct (interrupt_at E) as [g|];
      [destruct (g =? global_step st)|]; intros w; split; reflexivity.
  - destruct (_ =? _); intros w; split; reflexivity.
  - intros w. unfold optimizer_step. destruct (optim_step _ _).
    split; reflexivity.
  - unfold pymod. destruct (_ =? _); intros w; split; reflexivity.
  - destruct (_ =? _); intros w; split; reflexivity.
  - intros w. split; reflexivity.
Qed.

Lemma save_pt_fs_extends (f : string) : keeps fs_extends (save_pt f).
Proof.
  intros w. split; cbn; [reflexivity|]. rewrite dom_insert_L. set_solver.
Qed.

Lemma save_checkpoint_fs_extends (epoch : Z) (st : locals) :
  keeps fs_extends (save_checkpoint epoch st).
Proof.
  intros w. rewrite save_checkpoint_eq.
  assert (Hmk : fs_extends w (world_after_mkdir w)).
  { unfold world_after_mkdir.
    destruct (decide (dir_checkpoint ∈ dirs w)); split; cbn;
      try reflexivity. set_solver. }
  destruct (flt _ _); cbn [fst]; [|exact Hmk].
  apply (fs_extends_trans _ _ _ Hmk).
  apply (save_pt_fs_extends _ (world_after_mkdir w)).
Qed.

Lemma train_epoch_fs (model : net) (n_train : Z) (nb : nat) (save_cp : bool)
  (epoch : Z) (st : locals) :
  keeps fs_extends (train_epoch model n_train nb save_cp epoch st).
Proof.
  assert (Hloop : forall s,
            keeps fs_same (for_range nb 0
                             (fun _ => train_batch model n_train) s)).
  { intros s. apply (keeps_for_range _ fs_same_refl fs_same_trans).
    intros i s0. apply train_batch_fs_same. }
  assert (Hsched : keeps fs_same (scheduler_step epoch)).
  { intros w. split; reflexivity. }
  unfold train_epoch.
  apply (keeps_bind _ fs_extends_trans);
    [apply (keeps_weaken fs_same), Hloop; apply fs_same_extends|].
  intros st1.
  apply (keeps_bind _ fs_extends_trans);
    [apply (keeps_weaken fs_same), Hsched; apply fs_same_extends|].
  intros _. destruct save_cp; [apply save_checkpoint_fs_extends|].
  apply (keeps_ret _ fs_extends_refl).
Qed.

Lemma train_net_fs (model : net) (epochs batch_size : Z) (val_percent : Q)
  (save_cp : bool) :
  keeps fs_extends (train_net model epochs batch_size val_percent save_cp).
Proof.
  unfold train_net.
  destruct (split_sizes (Z.of_N (len_dataset E)) val_percent)
    as [n_train n_val].
  assert (Hdl : forall n, keeps fs_extends (DataLoader n batch_size)).
  { intros n w. unfold DataLoader.
    destruct (_ <=? _); apply fs_extends_refl. }
  apply (keeps_bind _ fs_extends_trans); [apply Hdl|]. intros nb.
  apply (keeps_bind _ fs_extends_trans); [apply Hdl|]. intros _.
  apply (keeps_bind _ fs_extends_trans).
  { intros w. unfold LambdaLR. destruct (_ =? _); apply fs_extends_refl. }
  intros _. apply (keeps_for_range _ fs_extends_refl fs_extends_trans).
  intros i s. apply train_epoch_fs.
Qed.

Lemma no_disk_calls_refl (w : world) : no_disk_calls w w.
Proof. exists []. now rewrite app_nil_r. Qed.

Lemma no_disk_calls_trans (w1 w2 w3 : world) :
  no_disk_calls w1 w2 -> no_disk_calls w2 w3 -> no_disk_calls w1 w3.
Proof.
  intros (evs & Ht & Hm & Hs) (evs' & Ht' & Hm' & Hs').
  exists (evs ++ evs'). rewrite Ht', Ht, app_assoc, !count_app, Hm, Hm', Hs, Hs'.
  repeat split.
Qed.

Lemma train_batch_no_disk_calls (model : net) (n_train : Z) (st : locals) :
  keeps no_disk_calls (train_batch model n_train st).
Proof.
  unfold train_batch. cbv zeta.
  repeat (apply (keeps_bind _ no_disk_calls_trans); [|intros ?]).
  - destruct (interrupt_at E) as [g|];
      [destruct (g =? global_step st)|]; intros w; apply no_disk_calls_refl.
  - destruct (_ =? _); intros w; apply no_disk_calls_refl.
  - intros w. unfold optimizer_step. destruct (optim_step _ _).
    now exists [EvOptimStep (global_step st)].
  - unfold pymod. destruct (_ =? _); intros w; apply no_disk_calls_refl.
  - destruct (_ =? _); intros w; [|apply no_disk_calls_refl].
    now exists [EvEval (global_step st + 1)].
  - intros w. apply no_disk_calls_refl.
Qed.

Lemma train_net_no_disk_calls (model : net) (epochs batch_size : Z)
  (val_percent : Q) :
  keeps no_disk_calls (train_net model epochs batch_size val_percent false).
Proof.
  unfold train_net.
  destruct (split_sizes (Z.of_N (len_dataset E)) val_percent)
    as [n_train n_val].
  assert (Hdl : forall n, keeps no_disk_calls (DataLoader n batch_size)).
  { intros n w. unfold DataLoader.
    destruct (_ <=? _); apply no_disk_calls_refl. }
  apply (keeps_bind _ no_disk_calls_trans); [apply Hdl|]. intros nb.
  apply (keeps_bind _ no_disk_calls_trans); [apply Hdl|]. intros _.
  apply (keeps_bind _ no_disk_calls_trans).
  { intros w. unfold LambdaLR. destruct (_ =? _); apply no_disk_calls_refl. }
  intros _.
  apply (keeps_for_range _ no_disk_calls_refl no_disk_calls_trans).
  intros i s0. unfold train_epoch.
  apply (keeps_bind _ no_disk_calls_trans).
  { apply (keeps_for_range _ no_disk_calls_refl no_disk_calls_trans).
    intros k s1. apply train_batch_no_disk_calls. }
  intros st1. apply (keeps_bind _ no_disk_calls_trans).
  { intros w. now exists [EvSchedStep i]. }
  intros _. apply (keeps_ret _ no_disk_calls_refl).
Qed.

(** X10. However a run ends (normally, on a failed assertion, on a
    division by zero, on Ctrl-C), [train_net] and the whole main block
    remove nothing: every directory and every file name that was there
    before is there afterwards.  With [save_cp] off, [train_net] makes
    no call of [os.mkdir] and none of [torch.save], however it ends: it
    never creates the checkpoint directory and never writes a
    checkpoint. *)
Theorem run_never_deletes (model : net) (epochs batch_size : Z)
  (val_percent : Q) (save_cp : bool) (a : args) (w : world) :
  fs_extends w
    (fst (train_net model epochs batch_size val_percent save_cp w))
  /\ fs_extends w (fst (main a w))
  /\ exists evs,
       trace (fst (train_net model epochs batch_size val_percent false w))
       = trace w ++ evs
       /\ count is_mkdir evs = 0%nat /\ count is_save evs = 0%nat.
Proof.
  split; [apply train_net_fs|]. split; [|apply train_net_no_disk_calls].
  unfold main, guarded.
  apply (keeps_try_except _ fs_extends_trans).
  - apply (keeps_bind _ fs_extends_trans);
      [apply train_net_fs|].
    intros _. apply (keeps_ret _ fs_extends_refl).
  - intros e. destruct e; try apply (keeps_raise _ fs_extends_refl).
    unfold on_interrupt.
    apply (keeps_bind _ fs_extends_trans);
      [apply save_pt_fs_extends|].
    intros _ w0. apply fs_extends_refl.
Qed.

(** *** The calls of a whole run *)

Lemma count_batches_zero (f : event -> bool) (p : Z) (n : nat) :
  (forall g, f (EvOptimStep g) = false) ->
  (forall g, f (EvEval g) = false) ->
  forall g, count f (batches_events p n g) = 0%nat.
Proof.
  intros Ho He. induction n as [|n IH]; intros g; [reflexivity|].
  cbn [batches_events]. unfold batch_events. rewrite count_app, IH.
  cbn [count app]. rewrite Ho.
  destruct ((g + 1) mod p =? 0); cbn; rewrite ?He; reflexivity.
Qed.

Lemma count_optim_batches (p : Z) (n : nat) :
  forall g, count is_optim (batches_events p n g) = n.
Proof.
  induction n as [|n IH]; intros g; [reflexivity|].
  cbn [batches_events]. unfold batch_events. rewrite count_app, IH.
  destruct ((g + 1) mod p =? 0); reflexivity.
Qed.

Lemma optim_steps_app (evs evs' : list event) :
  optim_steps (evs ++ evs') = optim_steps evs ++ optim_steps evs'.
Proof.
  induction evs as [|e evs IH]; [reflexivity|].
  destruct e; cbn; now rewrite IH.
Qed.

Lemma steps_from_app (a b : nat) :
  forall g, steps_from (a + b) g
            = steps_from a g ++ steps_from b (g + Z.of_nat a).
Proof.
  induction a as [|a IH]; intros g.
  - cbn. now rewrite Z.add_0_r.
  - cbn [Nat.add steps_from app]. rewrite IH. do 3 f_equal. lia.
Qed.

Lemma optim_steps_batches (p : Z) (n : nat) :
  forall g, optim_steps (batches_events p n g) = steps_from n g.
Proof.
  induction n as [|n IH]; intros g; [reflexivity|].
  cbn [batches_events steps_from]. unfold batch_events.
  rewrite optim_steps_app, IH.
  destruct ((g + 1) mod p =? 0); reflexivity.
Qed.

Lemma optim_steps_epoch (p : Z) (nb : nat) (save_cp : bool) (epoch : Z)
  (st : locals) (w : world) :
  optim_steps (epoch_events p nb save_cp epoch st w)
  = steps_from nb (global_step st).
Proof.
  unfold epoch_events, checkpoint_events.
  rewrite optim_steps_app, optim_steps_batches.
  destruct save_cp; [destruct (flt _ _)|]; cbn; now rewrite app_nil_r.
Qed.



(** *** Loops that stop *)

(** The loop rule for a loop that is cut short: when the iterations
    before index [K] return and keep the invariant, and iteration [K]
    raises, the loop raises what iteration [K] raised. *)
Lemma for_range_stops {S : Type} (I : Z -> S -> world -> Prop)
  (Q : world -> Prop) (body : Z -> S -> M S) (e : exn) (K : Z) :
  (forall i s w, I i s w -> i < K ->
     exists w' s', body i s w = (w', Returned s') /\ I (i + 1) s' w') ->
  (forall s w, I K s w -> exists w', body K s w = (w', Raised e) /\ Q w') ->
  forall (n : nat) (i : Z) (s : S) (w : world),
    I i s w -> i <= K < i + Z.of_nat n ->
    exists w', for_range n i body s w = (w', Raised e) /\ Q w'.
Proof.
  intros Hbefore Hat. induction n as [|n IH]; intros i s w Hi HK; [lia|].
  destruct (Z.eq_dec i K) as [->|Hne].
  - destruct (Hat _ _ Hi) as (w' & Hb & HQ). exists w'. split; [|exact HQ].
    now apply for_range_raise.
  - destruct (Hbefore _ _ _ Hi) as (w1 & s1 & Hb & Hi1); [lia|].
    destruct (IH _ _ _ Hi1) as (w' & Hl & HQ); [lia|].
    exists w'. split; [|exact HQ].
    cbn [for_range]. unfold bind. now rewrite Hb.
Qed.

End Script.

(** ** A run that is interrupted *)

Section Interrupted.

Variable state_dict : Type.
Variable optim_step : Z -> state_dict * state_dict -> state_dict * state_dict.
Variable str_loss : pyfloat -> string.
Variable E : env.
Variable model : net.
Variable g : Z.

(** Ctrl-C arrives as the batch of global step [g] is drawn, and every
    batch has the channel count of the model. *)
Hypothesis interrupt_at_g : interrupt_at E = Some g.
Hypothesis channels_ok : forall g', batch_channels E g' = n_channels model.

Lemma quiet_undisturbed : undisturbed (quiet E) model.
Proof. split; [reflexivity|exact channels_ok]. Qed.

Lemma train_batch_interrupted (n_train : Z) (st : locals)
  (w : world state_dict) :
  global_step st = g ->
  train_batch state_dict optim_step E model n_train st w
  = (w, Raised KeyboardInterrupt).
Proof.
  intros Hg. unfold train_batch, bind. rewrite interrupt_at_g, Hg, Z.eqb_refl.
  reflexivity.
Qed.

Lemma train_batch_before (n_train : Z) (st : locals) (w : world state_dict) :
  global_step st <> g ->
  train_batch state_dict optim_step E model n_train st w
  = train_batch state_dict optim_step (quiet E) model n_train st w.
Proof.
  intros Hg. unfold train_batch, bind. rewrite interrupt_at_g.
  apply not_eq_sym in Hg. apply Z.eqb_neq in Hg. rewrite Hg. reflexivity.
Qed.

Lemma batches_before (n_train : Z) (n : nat) :
  n_train / 10 <> 0 ->
  forall (i : Z) (st : locals) (w : world state_dict),
    global_step st + Z.of_nat n <= g ->
    for_range state_dict n i
      (fun _ => train_batch state_dict optim_step E model n_train) st w
    = for_range state_dict n i
        (fun _ => train_batch state_dict optim_step (quiet E) model n_train)
        st w.
Proof.
  intros Hp. induction n as [|n IH]; intros i st w Hg; [reflexivity|].
  cbn [for_range]. unfold bind.
  rewrite train_batch_before by lia.
  rewrite (train_batch_ok state_dict optim_step (quiet E))
    by (assumption || exact quiet_undisturbed).
  apply IH. cbn [global_step]. lia.
Qed.

Lemma batches_interrupted (n_train : Z) (n : nat) :
  n_train / 10 <> 0 ->
  forall (i : Z) (st : locals) (w : world state_dict),
    global_step st <= g < global_step st + Z.of_nat n ->
    for_range state_dict n i
      (fun _ => train_batch state_dict optim_step E model n_train) st w
    = (world_after_batches state_dict optim_step (n_train / 10)
         (Z.to_nat (g - global_step st)) (global_step st) w,
       Raised KeyboardInterrupt).
Proof.
  intros Hp. induction n as [|n IH]; intros i st w Hg; [lia|].
  destruct (Z.eq_dec (global_step st) g) as [Heq|Hne].
  - rewrite (for_range_raise state_dict _ n i st w w KeyboardInterrupt)
      by now apply train_batch_interrupted.
    rewrite Heq, Z.sub_diag. cbn [Z.to_nat].
    now rewrite world_after_batches_O.
  - cbn [for_range]. unfold bind.
    rewrite train_batch_before by assumption.
    rewrite (train_batch_ok state_dict optim_step (quiet E))
      by (assumption || exact quiet_undisturbed).
    rewrite IH by (cbn [global_step]; lia). cbn [global_step].
    replace (Z.to_nat (g - global_step st))
      with (Datatypes.S (Z.to_nat (g - (global_step st + 1)))) by lia.
    f_equal. symmetry. apply world_after_batches_S.
Qed.

Lemma train_epoch_before (n_train : Z) (nb : nat) (save_cp : bool)
  (epoch : Z) (st : locals) (w : world state_dict) :
  n_train / 10 <> 0 ->
  global_step st + Z.of_nat nb <= g ->
  train_epoch state_dict optim_step str_loss E model n_train nb save_cp
    epoch st w
  = train_epoch state_dict optim_step str_loss (quiet E) model n_train nb
      save_cp epoch st w.
Proof.
  intros Hp Hg. unfold train_epoch, bind.
  now rewrite batches_before by (cbn [global_step]; assumption).
Qed.

Lemma train_epoch_interrupted (n_train : Z) (nb : nat) (save_cp : bool)
  (epoch : Z) (st : locals) (w : world state_dict) :
  n_train / 10 <> 0 ->
  global_step st <= g < global_step st + Z.of_nat nb ->
  train_epoch state_dict optim_step str_loss E model n_train nb save_cp
    epoch st w
  = (world_after_batches state_dict optim_step (n_train / 10)
       (Z.to_nat (g - global_step st)) (global_step st) w,
     Raised KeyboardInterrupt).
Proof.
  intros Hp Hg. unfold train_epoch, bind.
  now rewrite batches_interrupted by (cbn [global_step]; assumption).
Qed.

(** When Ctrl-C arrives as the batch of global step [g] is drawn, in a
    run that has such a batch, [train_net] raises KeyboardInterrupt after
    exactly the optimizer steps of the global steps before [g]. *)
Lemma train_net_interrupted (epochs batch_size : Z) (val_percent : Q)
  (save_cp : bool) (w : world state_dict) :
  let n_train := fst (split_sizes (Z.of_N (len_dataset E)) val_percent) in
  let nb := batches_per_epoch n_train batch_size in
  0 < batch_size ->
  n_train / 10 <> 0 ->
  0 <= g < Z.of_nat (Z.to_nat epochs) * Z.of_nat nb ->
  exists w',
    train_net state_dict optim_step str_loss E model epochs batch_size
      val_percent save_cp w = (w', Raised KeyboardInterrupt)
    /\ exists evs, trace w' = trace w ++ evs
                   /\ optim_steps evs = steps_from (Z.to_nat g) 0.
Proof.
  intros n_train nb Hbs Hp Hg.
  assert (He : epochs <> 0) by lia.
  assert (Hnb : 0 < Z.of_nat nb) by nia.
  rewrite train_net_eq by assumption. fold n_train. fold nb.
  pose (I := fun (i : Z) (st : locals) (w1 : world state_dict) =>
    0 <= i /\ global_step st = i * Z.of_nat nb
    /\ exists evs, trace w1 = trace w ++ evs
         /\ optim_steps evs = steps_from (Z.to_nat (i * Z.of_nat nb)) 0).
  apply (for_range_stops state_dict I
           (fun w' => exists evs, trace w' = trace w ++ evs
                        /\ optim_steps evs = steps_from (Z.to_nat g) 0)
           _ KeyboardInterrupt (g / Z.of_nat nb)).
  - intros i st w1 (Hi & Hgs & evs & Htr & Ho) HiK.
    assert (Hnext : (i + 1) * Z.of_nat nb <= g).
    { assert (i + 1 <= g / Z.of_nat nb) by lia.
      pose proof (Z.mul_div_le g (Z.of_nat nb) Hnb). nia. }
    rewrite train_epoch_before by (assumption || lia).
    destruct (train_epoch_run state_dict optim_step str_loss (quiet E) model
                n_train nb save_cp i st w1 quiet_undisturbed Hp)
      as (w2 & st2 & Hrun & Htr2 & Hg2 & _).
    exists w2, st2. split; [exact Hrun|]. unfold I.
    split; [lia|]. split; [lia|].
    exists (evs ++ epoch_events state_dict str_loss (quiet E) (n_train / 10)
                     nb save_cp i st w1).
    split; [rewrite Htr2, Htr; now rewrite app_assoc|].
    rewrite optim_steps_app, optim_steps_epoch, Ho, Hgs.
    replace (Z.to_nat ((i + 1) * Z.of_nat nb))
      with (Z.to_nat (i * Z.of_nat nb) + nb)%nat by nia.
    rewrite steps_from_app. f_equal. f_equal. nia.
  - intros st w1 (Hi & Hgs & evs & Htr & Ho).
    assert (Hin : global_step st <= g < global_step st + Z.of_nat nb).
    { rewrite Hgs. pose proof (Z.mul_div_le g (Z.of_nat nb) Hnb).
      pose proof (Z.mul_succ_div_gt g (Z.of_nat nb) Hnb). nia. }
    rewrite train_epoch_interrupted by assumption.
    eexists. split; [reflexivity|].
    exists (evs ++ batches_events (n_train / 10)
                     (Z.to_nat (g - global_step st)) (global_step st)).
    split; [rewrite trace_world_after_batches, Htr; now rewrite app_assoc|].
    rewrite optim_steps_app, optim_steps_batches, Ho, Hgs.
    replace (Z.to_nat g)
      with (Z.to_nat (g / Z.of_nat nb * Z.of_nat nb)
            + Z.to_nat (g - g / Z.of_nat nb * Z.of_nat nb))%nat by nia.
    rewrite steps_from_app. f_equal. f_equal. nia.
  - unfold I. split; [lia|]. split; [reflexivity|].
    exists []. split; [now rewrite app_nil_r|reflexivity].
  - split; [apply Z.div_pos; lia|].
    rewrite Z.add_0_l. apply Z.div_lt_upper_bound; nia.
Qed.

End Interrupted.



(** ** The theorems at the sample inputs *)

Lemma demo_undisturbed : undisturbed demo_env (UNet 3 1).
Proof. split; [reflexivity | intros g; reflexivity]. Defined.

Lemma demo_small_undisturbed : undisturbed demo_env_small (UNet 3 1).
Proof. split; [reflexivity | intros g; reflexivity]. Defined.

Lemma demo_period : 90 / 10 <> 0.
Proof. discriminate. Defined.

(** C6 at a file saved from the fresh world and loaded after the model and
    the optimizer have moved on. *)
Lemma checkpoint_round_trip_witness :
  files demo_world_later !! "a.pt"
  = files (world_after_save nat "a.pt" demo_world) !! "a.pt"
  /\ load_pt nat "a.pt" demo_world_later =
      (mkWorld 0%nat 0%nat (dirs demo_world_later) (files demo_world_later)
               (trace demo_world_later), Returned tt).
Proof.
  assert (H : files demo_world_later !! "a.pt"
              = files (world_after_save nat "a.pt" demo_world) !! "a.pt")
    by reflexivity.
  split; [exact H|].
  exact (proj2 (checkpoint_round_trip nat "a.pt" demo_world demo_world_later)
           H).
Defined.

(** C10 at the documented value ["v1"]. *)
Lemma select_model_cases_witness :
  "v1" <> "v2" /\ "v1" <> "v3" /\ select_model "v1" = UNet 3 1.
Proof.
  assert (H2 : "v1" <> "v2") by discriminate.
  assert (H3 : "v1" <> "v3") by discriminate.
  split; [exact H2|]. split; [exact H3|].
  exact (proj1 (select_model_cases "v1") H2 H3).
Defined.

(** C3 at 10 samples and the float [0.7]: the float is a little less
    than seven tenths, the binary64 product is 7 exactly, and the split
    is 3 and 7. *)
Lemma dataset_split_witness :
  Z.of_N 10 < 2 ^ 63
  /\ (0 <=? 7 / 10)%float = true
  /\ float_value (7 / 10)%float
     = Some (6305039478318694 # 9007199254740992)
  /\ option_map Qred
       (float_value (float_of_len (Z.of_N 10) * (7 / 10))%float)
     = Some (7 # 1)
  /\ exists n_train n_val,
       split_sizes_float (Z.of_N 10) (7 / 10)%float
       = Returned (n_train, n_val)
       /\ n_val = 7 /\ n_train = 3 /\ n_train + n_val = Z.of_N 10.
Proof.
  assert (Hl : Z.of_N 10 < 2 ^ 63) by reflexivity.
  assert (Hv : (0 <=? 7 / 10)%float = true) by (vm_compute; reflexivity).
  split; [exact Hl|]. split; [exact Hv|].
  split; [vm_compute; reflexivity|]. split; [vm_compute; reflexivity|].
  pose proof (dataset_split 10 (7 / 10)%float Hl Hv) as H.
  assert (Hp : float_value (float_of_len (Z.of_N 10) * (7 / 10))%float
               = Some (7881299347898368 # 1125899906842624))
    by (vm_compute; reflexivity).
  rewrite Hp in H.
  destruct H as (n_train & n_val & Hs & Hval & Htr & Hsum).
  exists n_train, n_val. split; [exact Hs|].
  assert (H7 : n_val = 7) by (rewrite Hval; vm_compute; reflexivity).
  split; [exact H7|]. split; [|exact Hsum].
  rewrite Htr, H7. reflexivity.
Defined.



(** C7 in a working directory that already has the checkpoint
    directory. *)
Lemma mkdir_error_swallowed_witness :
  dir_checkpoint ∈ dirs demo_world_with_dir
  /\ os_mkdir nat dir_checkpoint demo_world_with_dir =
      (add_events nat demo_world_with_dir [EvMkdir dir_checkpoint false],
       Raised OSError)
  /\ try_mkdir nat demo_world_with_dir =
      (add_events nat demo_world_with_dir [EvMkdir dir_checkpoint false],
       Returned tt).
Proof.
  assert (H : dir_checkpoint ∈ dirs demo_world_with_dir)
    by (apply elem_of_singleton; reflexivity).
  split; [exact H|].
  destruct (proj2 (mkdir_error_swallowed nat demo_optim_step demo_str_loss
                     demo_env (UNet 3 1) 90 45 0 initial_locals
                     demo_world_with_dir) H) as (Hmk & Htry & _).
  split; assumption.
Defined.

(** C8 at a training set of 90 samples, and at one of 5, where the first
    batch ends the run. *)
Lemma validation_modulus_witness :
  (10 <= 90 /\ 90 / 10 <> 0)
  /\ (0 <= 5 < 10
      /\ train_net nat demo_optim_step demo_str_loss demo_env_small
           (UNet 3 1) 1 2 (1 # 10) true demo_world =
         (fst (optimizer_step nat demo_optim_step 0 demo_world),
          Raised ZeroDivisionError)).
Proof.
  assert (H90 : 10 <= 90) by discriminate.
  assert (H5 : 0 <= 5 < 10) by (split; [discriminate | reflexivity]).
  split.
  - split; [exact H90|].
    exact (proj1 (proj1 (validation_modulus nat demo_optim_step demo_str_loss
                           demo_env (UNet 3 1) 1 2 (1 # 10) true 90
                           initial_locals demo_world) H90)).
  - split; [exact H5|].
    refine (proj2 (proj2 (proj2 (proj2
              (validation_modulus nat demo_optim_step demo_str_loss
                 demo_env_small (UNet 3 1) 1 2 (1 # 10) true 5
                 initial_locals demo_world) H5)))
              demo_small_undisturbed _ _ _ _);
      [reflexivity | reflexivity | reflexivity | discriminate].
Defined.



(** C2 at a run interrupted while the batch of global step 7 is drawn:
    seven optimizer steps have been taken, and their result is what
    ['INTERRUPTED.pt'] holds. *)
Lemma interrupt_saves_checkpoint_witness :
  snd (train_net nat demo_optim_step demo_str_loss demo_env_interrupted
         (select_model "v1") 1 2 (10 / 100)%Q true demo_world)
  = Raised KeyboardInterrupt
  /\ files (fst (main nat demo_optim_step demo_str_loss demo_env_interrupted
                   demo_args demo_world)) !! "INTERRUPTED.pt"
     = Some (<["optimizer" := 14%nat]> (<["model" := 7%nat]> ∅)).
Proof.
  split; [vm_compute; reflexivity|].
  pose (body := train_net nat demo_optim_step demo_str_loss
                  demo_env_interrupted (select_model "v1") 1 2 (10 / 100)%Q
                  true).
  assert (Hb : body demo_world
               = (fst (body demo_world), Raised KeyboardInterrupt))
    by (vm_compute; reflexivity).
  destruct (proj1 (interrupt_saves_checkpoint nat locals body demo_world
                     (fst (body demo_world)) KeyboardInterrupt) Hb)
    as (_ & Hfile & _).
  change (main nat demo_optim_step demo_str_loss demo_env_interrupted
            demo_args demo_world) with (guarded nat body demo_world).
  rewrite Hfile. vm_compute. reflexivity.
Defined.

(** ** What the spec says and the script does not do *)

(** C2 as stated fails: KeyboardInterrupt is not the only exception the
    script handles.  In a run that finds the checkpoint directory in
    place, [os.mkdir] raises OSError, the script swallows it, and the run
    returns normally. *)
Lemma oserror_is_handled_too :
  snd (os_mkdir nat dir_checkpoint demo_world_with_dir) = Raised OSError
  /\ OSError <> KeyboardInterrupt
  /\ In (EvMkdir dir_checkpoint false)
        (trace (fst (main nat demo_optim_step demo_str_loss demo_env
                       demo_args demo_world_with_dir)))
  /\ snd (main nat demo_optim_step demo_str_loss demo_env demo_args
            demo_world_with_dir) = Returned tt.
Proof.
  split; [vm_compute; reflexivity|]. split; [discriminate|].
  split; [|vm_compute; reflexivity].
  vm_compute. repeat (first [left; reflexivity | right]).
Qed.


(** ** The further properties at the sample inputs *)

Lemma demo_nan_undisturbed : undisturbed demo_env_nan (UNet 3 1).
Proof. split; [reflexivity | intros g; reflexivity]. Defined.

Lemma demo_split_period :
  fst (split_sizes (Z.of_N (len_dataset demo_env)) (1 # 10)) / 10 <> 0.
Proof. discriminate. Defined.

(** X1 at a path without a file and at a file that holds a model only:
    the model is replaced by the 3 of the file, the optimizer keeps its
    9. *)
Lemma load_pt_failures_witness :
  (files demo_world !! "a.pt" = None
   /\ load_pt nat "a.pt" demo_world
      = (demo_world, Raised (FileNotFoundError "a.pt")))
  /\ (files demo_world_model_only !! "m.pt" = Some (<["model" := 3%nat]> ∅)
      /\ load_pt nat "m.pt" demo_world_model_only
         = (mkWorld 3%nat 9%nat (dirs demo_world_model_only)
              (files demo_world_model_only) (trace demo_world_model_only),
            Raised (KeyError "optimizer"))).
Proof.
  assert (Hnone : files demo_world !! "a.pt" = None) by reflexivity.
  assert (Hsome : files demo_world_model_only !! "m.pt"
                  = Some (<["model" := 3%nat]> ∅)) by reflexivity.
  split.
  - split; [exact Hnone|].
    exact (proj1 (load_pt_failures nat "a.pt" demo_world ∅ 0%nat) Hnone).
  - split; [exact Hsome|].
    refine (proj2 (proj2 (load_pt_failures nat "m.pt" demo_world_model_only
                            (<["model" := 3%nat]> ∅) 3%nat)) Hsome _ _);
      reflexivity.
Defined.

(** X2 at a save to ['b.pt'] in a world that has ['a.pt']. *)
Lemma save_pt_frame_witness :
  "a.pt" <> "b.pt"
  /\ files (fst (save_pt nat "b.pt" demo_world_later)) !! "a.pt"
     = files demo_world_later !! "a.pt".
Proof.
  assert (H : "a.pt" <> "b.pt") by discriminate.
  split; [exact H|].
  destruct (save_pt_frame nat "b.pt" "a.pt" demo_world_later)
    as (_ & _ & _ & _ & Hother & _).
  exact (Hother H).
Defined.

(** X3 at the run interrupted at global step 7. *)
Lemma main_block_outcome_witness :
  snd (train_net nat demo_optim_step demo_str_loss demo_env_interrupted
         (select_model "v1") 1 2 (10 / 100)%Q true demo_world)
  = Raised KeyboardInterrupt
  /\ snd (main nat demo_optim_step demo_str_loss demo_env_interrupted
            demo_args demo_world) = Raised AttributeError.
Proof.
  split; [vm_compute; reflexivity|].
  pose (body := train_net nat demo_optim_step demo_str_loss
                  demo_env_interrupted (select_model "v1") 1 2 (10 / 100)%Q
                  true).
  assert (Hb : body demo_world
               = (fst (body demo_world), Raised KeyboardInterrupt))
    by (vm_compute; reflexivity).
  change (main nat demo_optim_step demo_str_loss demo_env_interrupted
            demo_args demo_world) with (guarded nat body demo_world).
  rewrite (proj2 (main_block_outcome nat locals body demo_world
                    (fst (body demo_world)) initial_locals) Hb).
  reflexivity.
Defined.

(** X4 at a dataset of one-channel images. *)
Lemma channel_assertion_witness :
  interrupt_at demo_env_grey <> Some 0
  /\ batch_channels demo_env_grey 0 <> 3
  /\ snd (main nat demo_optim_step demo_str_loss demo_env_grey demo_args
            demo_world) = Raised AssertionError
  /\ trace (fst (main nat demo_optim_step demo_str_loss demo_env_grey
                  demo_args demo_world)) = trace demo_world.
Proof.
  assert (Hi : interrupt_at demo_env_grey <> Some 0) by discriminate.
  assert (Hc : batch_channels demo_env_grey 0 <> 3) by discriminate.
  split; [exact Hi|]. split; [exact Hc|].
  assert (H : snd (main nat demo_optim_step demo_str_loss demo_env_grey
                     demo_args demo_world) = Raised AssertionError
              /\ trace (fst (main nat demo_optim_step demo_str_loss
                               demo_env_grey demo_args demo_world))
                 = trace demo_world
              /\ model_state (fst (main nat demo_optim_step demo_str_loss
                                     demo_env_grey demo_args demo_world))
                 = model_state demo_world).
  { refine (proj2 (channel_assertion nat demo_optim_step demo_str_loss
                     demo_env_grey (UNet 3 1) 90 initial_locals demo_args
                     demo_world) Hi Hc _ _ _);
      [reflexivity | reflexivity | discriminate]. }
  destruct H as (Ho & Ht & _). split; [exact Ho | exact Ht].
Defined.

(** X5 at 100 samples: with the float [29 / 100] the product is a little
    less than 29 and the split is 72 and 28; with NaN the split raises
    ValueError. *)
Lemma split_rounds_toward_zero_witness :
  Z.of_N 100 < 2 ^ 63
  /\ split_sizes_float (Z.of_N 100) (29 / 100)%float = Returned (72, 28)
  /\ split_sizes_float (Z.of_N 100) nan = Raised ValueError.
Proof.
  assert (Hl : Z.of_N 100 < 2 ^ 63) by reflexivity.
  split; [exact Hl|]. split; [vm_compute; reflexivity|].
  pose proof (split_rounds_toward_zero 100 nan Hl) as H.
  cbv zeta in H.
  assert (Hp : Prim2SF (float_of_len (Z.of_N 100) * nan)%float = S754_nan)
    by (vm_compute; reflexivity).
  rewrite Hp in H. exact H.
Defined.

(** X7 at a training-set size of 5 and at one of -5. *)
Lemma modulus_zero_iff_witness :
  undisturbed demo_env (UNet 3 1)
  /\ 0 <= 5 < 10
  /\ snd (train_batch nat demo_optim_step demo_env (UNet 3 1) 5
            initial_locals demo_world) = Raised ZeroDivisionError
  /\ -10 <= -5 < 0
  /\ (forall g, g mod (-5 / 10) = 0).
Proof.
  assert (H5 : 0 <= 5 < 10) by (split; [discriminate | reflexivity]).
  assert (Hm : -10 <= -5 < 0) by (split; [discriminate | reflexivity]).
  destruct (modulus_zero_iff nat demo_optim_step demo_env (UNet 3 1) 5
              initial_locals demo_world) as (_ & Hraise & _).
  destruct (modulus_zero_iff nat demo_optim_step demo_env (UNet 3 1) (-5)
              initial_locals demo_world) as (_ & _ & _ & Hall).
  split; [exact demo_undisturbed|]. split; [exact H5|].
  split; [exact (proj2 (Hraise demo_undisturbed) H5)|].
  split; [exact Hm | exact (Hall Hm)].
Defined.

(** X8 at an epoch of 45 batches whose losses are all NaN. *)
Lemma first_epoch_saves_witness :
  undisturbed demo_env_nan (UNet 3 1) /\ 90 / 10 <> 0
  /\ Z.of_nat 45 < 10000
  /\ exists w' st',
       train_epoch nat demo_optim_step demo_str_loss demo_env_nan (UNet 3 1)
         90 45 true 0 (mkLocals 0 (of_int 10000) (of_int 0)) demo_world
       = (w', Returned st')
       /\ flt (epoch_loss st') (of_int 10000) = true
       /\ files w' !! checkpoint_name demo_str_loss 0 (epoch_loss st')
          = Some (checkpoint_of nat w')
       /\ best_loss st' = epoch_loss st'.
Proof.
  assert (H45 : Z.of_nat 45 < 10000) by reflexivity.
  split; [exact demo_nan_undisturbed|]. split; [exact demo_period|].
  split; [exact H45|].
  exact (first_epoch_saves nat demo_optim_step demo_str_loss demo_env_nan
           (UNet 3 1) 90 45 0 0 demo_world demo_nan_undisturbed demo_period
           H45).
Defined.




